(** * dota2api: the client's pagination walk, retry wrappers and error mapping

    A shallow embedding of [dota2api/__init__.py].  Python integers are [Z],
    keyword-argument dictionaries are insertion-ordered association lists,
    exceptions are values of [exn], and every function that talks to the
    network or sleeps is a computation over the log of events issued so far. *)

From Stdlib Require Import ZArith List String Bool Lia.
Import ListNotations.

Local Open Scope string_scope.
Local Open Scope list_scope.
Local Open Scope Z_scope.

(** ** Python values and keyword-argument dictionaries *)

Inductive pyval : Type :=
| PyNone
| PyInt (z : Z)
| PyStr (s : string).

(** A [**kwargs] dictionary.  Python dictionaries keep insertion order and
    [urlencode] walks them in that order, so the order is kept here. *)
Definition kwargs := list (string * pyval).

Fixpoint dict_get (k : string) (d : kwargs) : option pyval :=
  match d with
  | [] => None
  | (k', v) :: d' => if String.eqb k k' then Some v else dict_get k d'
  end.

(** [k in d] *)
Definition dict_in (k : string) (d : kwargs) : bool :=
  match dict_get k d with Some _ => true | None => false end.

(** [d[k] = v]: overwrite in place when the key exists, append otherwise. *)
Fixpoint dict_set (k : string) (v : pyval) (d : kwargs) : kwargs :=
  match d with
  | [] => [(k, v)]
  | (k', v') :: d' =>
      if String.eqb k k' then (k, v) :: d' else (k', v') :: dict_set k v d'
  end.

(** ** Exceptions *)

Inductive exn : Type :=
| APIAuthenticationError (api_key : option string)  (* exceptions.APIAuthenticationError *)
| APITimeoutError                                   (* exceptions.APITimeoutError *)
| UnboundLocalError (name : string)
| IndexError
| KeyError (key : string)
| TypeError
| RequestException.                                 (* a transport fault of the executor *)

(** ** Requests, responses and parsed results *)

(** The endpoint constants of [urls]. *)
Inductive ApiCall : Type :=
| GET_MATCH_HISTORY
| GET_MATCH_DETAILS
| GET_HEROES.

(** The query built by [__build_url]: the endpoint and the dictionary that
    [urlencode] turns into the query string. *)
Record Url : Type := { api_call : ApiCall; api_query : kwargs }.

Record MatchSummary : Type := { match_id : Z }.

Record HistoryPage : Type :=
  { num_results : Z;
    total_results : Z;
    results_remaining : Z;
    matches : list MatchSummary }.

Record MatchDetail : Type := { md_match_id : Z }.

Record Hero : Type := { id : Z; localized_name : string }.

(** The dictionaries the fetch operations return, by shape; [ObjNone] is
    Python's [None]. *)
Inductive pyobj : Type :=
| ObjNone
| ObjHistory (h : HistoryPage)
| ObjDetails (d : MatchDetail)
| ObjHeroes (heroes : list Hero).

Record Response : Type := { status_code : Z; json : pyobj }.

(** ** Effects: the event log and the computation monad *)

Inductive Event : Type :=
| EvGet (url : Url)       (* self.executor(url) *)
| EvSleep (seconds : Z)   (* time.sleep(seconds) *)
| EvBackoff.              (* the retry decorator's random wait, 5000..60000 ms *)

(** The log of events so far, oldest first. *)
Definition World := list Event.

(** A computation returns, raises, or is cut off by the fuel of a [while]. *)
Inductive res (A : Type) : Type :=
| Ret (a : A)
| Exc (e : exn)
| OutOfFuel.

Arguments Ret {A} a.
Arguments Exc {A} e.
Arguments OutOfFuel {A}.

Definition M (A : Type) : Type := World -> res A * World.

Definition ret {A} (a : A) : M A := fun w => (Ret a, w).

Definition raise {A} (e : exn) : M A := fun w => (Exc e, w).

Definition out_of_fuel {A} : M A := fun w => (OutOfFuel, w).

Definition bind {A B} (c : M A) (k : A -> M B) : M B :=
  fun w =>
    match c w with
    | (Ret a, w') => k a w'
    | (Exc e, w') => (Exc e, w')
    | (OutOfFuel, w') => (OutOfFuel, w')
    end.

Notation "x <- c ;; k" := (bind c (fun x => k))
  (at level 61, c at next level, right associativity).
Notation "c ;;; k" := (bind c (fun _ => k))
  (at level 61, right associativity).

(** [time.sleep(seconds)] *)
Definition sleep (seconds : Z) : M unit := fun w => (Ret tt, w ++ [EvSleep seconds]).

(** The requests of a log, in order. *)
Fixpoint requests_of (w : World) : list Url :=
  match w with
  | [] => []
  | EvGet u :: w' => u :: requests_of w'
  | _ :: w' => requests_of w'
  end.

(** ** The client object *)

(** The request executor ([requests.get] by default): its answer may depend
    on everything that happened before the call. *)
Definition Executor := World -> Url -> res Response.

Record Initialise : Type :=
  { api_key : string;
    language : string;
    executor : Executor;
    logger : bool;
    format : string }.

(** Truthiness of an optional string argument: [None] and [""] are false. *)
Definition truthy (s : option string) : bool :=
  match s with
  | Some s' => negb (String.eqb s' "")
  | None => false
  end.

(** [os.environ]: ['D2_API_KEY' in os.environ] is [environ_get] giving
    [Some], and [os.environ['D2_API_KEY']] the value it gives. *)
Definition environ_get (name : string) (environ : list (string * string))
  : option string :=
  option_map snd (find (fun kv => String.eqb (fst kv) name) environ).

(** [Initialise.__init__]; [environ] is [os.environ] and [requests_get] the
    default executor. *)
Definition init (environ : list (string * string)) (requests_get : Executor)
    (api_key : option string) (executor : option Executor)
    (language : option string) (logging : bool) : res Initialise :=
  let rest (key : string) : Initialise :=
    {| api_key := key;
       language := (if truthy language
                    then match language with Some l => l | None => "en_us" end
                    else "en_us");
       executor := match executor with Some e => e | None => requests_get end;
       logger := logging;
       format := "json" |} in
  match (if truthy api_key then api_key else None) with
  | Some key => Ret (rest key)
  | None =>
      match environ_get "D2_API_KEY" environ with
      | Some key => Ret (rest key)
      | None => Exc (APIAuthenticationError None)
      end
  end.

(** [self.__build_url(api_call, **kwargs)] *)
Definition build_url (self : Initialise) (call : ApiCall) (kw : kwargs) : Url :=
  let kw := dict_set "key" (PyStr (api_key self)) kw in
  let kw := if dict_in "language" kw then kw
            else dict_set "language" (PyStr (language self)) kw in
  let kw := if dict_in "format" kw then kw
            else dict_set "format" (PyStr (format self)) kw in
  {| api_call := call; api_query := kw |}.

(** [self.__check_http_err(status_code)] *)
Definition check_http_err (self : Initialise) (status : Z) : M bool :=
  if status =? 403 then raise (APIAuthenticationError (Some (api_key self)))
  else if status =? 503 then raise APITimeoutError
  else ret false.

(** [self.executor(url)] *)
Definition call_executor (self : Initialise) (url : Url) : M Response :=
  fun w => (executor self w url, w ++ [EvGet url]).

(** Modelled from the spec: [response.build] lives in the module
    [.src.response], which is not among the sources; the spec describes the
    fetch operations as returning the "parsed JSON" of the response, so the
    parsed body is handed back as it is. *)
Definition build (req : Response) (url : Url) : pyobj := json req.

(** [self.get_match_history(account_id=None, **kwargs)].  The call of
    [self.logger.info] only writes to the log file and is left out; a
    function that falls off its end returns [None]. *)
Definition get_match_history (self : Initialise) (account_id : pyval) (kw : kwargs)
  : M pyobj :=
  let kw := if dict_in "account_id" kw then kw
            else dict_set "account_id" account_id kw in
  let url := build_url self GET_MATCH_HISTORY kw in
  req <- call_executor self url ;;
  err <- check_http_err self (status_code req) ;;
  if negb err then ret (build req url) else ret ObjNone.

(** [self.get_match_details(match_id=None, **kwargs)] *)
Definition get_match_details (self : Initialise) (mid : pyval) (kw : kwargs)
  : M pyobj :=
  let kw := if dict_in "match_id" kw then kw
            else dict_set "match_id" mid kw in
  let url := build_url self GET_MATCH_DETAILS kw in
  req <- call_executor self url ;;
  err <- check_http_err self (status_code req) ;;
  if negb err then ret (build req url) else ret ObjNone.

(** [self.get_heroes()] *)
Definition get_heroes (self : Initialise) : M pyobj :=
  let url := build_url self GET_HEROES [] in
  req <- call_executor self url ;;
  err <- check_http_err self (status_code req) ;;
  if negb err then ret (build req url) else ret ObjNone.

(** [convert_to_64_bit(number)] *)
Definition min64b : Z := 76561197960265728.

Definition convert_to_64_bit (number : Z) : Z :=
  if number <? min64b then number + min64b else number.

(** ** The retry decorator

    [@retry(wait_random_min=5000, wait_random_max=60000,
    stop_max_attempt_number=5)] comes from the third-party package
    [retrying].  Its [Retrying.call] runs the function; a returned value is
    handed back (no [retry_on_result] is given); a raised exception is
    rejected whatever its class (no [retry_on_exception] is given, and the
    package's default rejects every exception); after a rejected attempt it
    stops when the attempt number has reached [stop_max_attempt_number],
    re-raising that attempt's exception ([wrap_exception] is off), and
    otherwise waits a random time and tries again.  [left] counts the
    attempts that may still follow the current one. *)
Fixpoint retrying_call {A} (left : nat) (fn : M A) : M A :=
  fun w =>
    match fn w with
    | (Ret a, w') => (Ret a, w')
    | (Exc e, w') =>
        match left with
        | O => (Exc e, w')
        | S left' => retrying_call left' fn (w' ++ [EvBackoff])
        end
    | (OutOfFuel, w') => (OutOfFuel, w')
    end.

Definition retry {A} (stop_max_attempt_number : nat) (fn : M A) : M A :=
  retrying_call (stop_max_attempt_number - 1) fn.

(** [self.get_match_history_and_retry_on_failure(start_at_match_seq=None,
    account_id=None, **kwargs)] *)
Definition get_match_history_and_retry_on_failure (self : Initialise)
    (start_at_match_seq : pyval) (account_id : pyval) (kw : kwargs) : M pyobj :=
  retry 5 (get_match_history self account_id
             (("start_at_match_seq", start_at_match_seq) :: kw)).

(** [self.get_match_details_and_retry_on_failure(match_id=None, **kwargs)] *)
Definition get_match_details_and_retry_on_failure (self : Initialise)
    (mid : pyval) (kw : kwargs) : M pyobj :=
  retry 5 (get_match_details self mid kw).

(** ** Subscripting the parsed dictionaries *)

(** [hist[key]] for an integer field of a history page: [None] is not
    subscriptable, a dictionary of another shape lacks the key. *)
Definition item_int (field : HistoryPage -> Z) (key : string) (hist : pyobj) : M Z :=
  match hist with
  | ObjHistory h => ret (field h)
  | ObjNone => raise TypeError
  | _ => raise (KeyError key)
  end.

(** [hist['matches']] *)
Definition item_matches (hist : pyobj) : M (list MatchSummary) :=
  match hist with
  | ObjHistory h => ret (matches h)
  | ObjNone => raise TypeError
  | _ => raise (KeyError "matches")
  end.

(** [heroes['heroes']] *)
Definition item_heroes (heroes : pyobj) : M (list Hero) :=
  match heroes with
  | ObjHeroes hs => ret hs
  | ObjNone => raise TypeError
  | _ => raise (KeyError "heroes")
  end.

(** [l[-1]] *)
Definition item_last {A} (l : list A) : M A :=
  match rev l with
  | x :: _ => ret x
  | [] => raise IndexError
  end.

(** Reading a local variable that may not have been assigned yet. *)
Definition read_local {A} (name : string) (v : option A) : M A :=
  match v with
  | Some a => ret a
  | None => raise (UnboundLocalError name)
  end.

(** ** The batch walk *)

(** The [for eachMatch in match_batch_iterable] loop (lines 81-84); [tqdm]
    yields the elements of the list it wraps. *)
Fixpoint for_each_match (self : Initialise) (batch : list MatchSummary)
    (acc : list pyobj) : M (list pyobj) :=
  match batch with
  | [] => ret acc
  | eachMatch :: batch' =>
      sleep 1 ;;;
      details <- get_match_details_and_retry_on_failure self
                   (PyInt (match_id eachMatch)) [] ;;
      for_each_match self batch' (acc ++ [details])
  end.

(** [match_start_index = hist['matches'][-1]['match_id'] - 1] (line 86) *)
Definition next_start_index (hist : pyobj) : M Z :=
  batch <- item_matches hist ;;
  eachLast <- item_last batch ;;
  ret (match_id eachLast - 1).

(** The [while remaining_matches > 0] loop (lines 74-89).  [fuel] bounds the
    number of iterations. *)
Fixpoint while_remaining (fuel : nat) (self : Initialise) (account_id : pyval)
    (silently : bool) (remaining_matches : Z) (hist : pyobj)
    (acc : list pyobj) : M (list pyobj) :=
  if remaining_matches >? 0 then
    match fuel with
    | O => out_of_fuel
    | S fuel' =>
        remaining_matches <- item_int results_remaining "results_remaining" hist ;;
        batch <- item_matches hist ;;
        (if silently then ret 0
         else item_int num_results "num_results" hist) ;;;
        acc <- for_each_match self batch acc ;;
        match_start_index <- next_start_index hist ;;
        sleep 1 ;;;
        hist <- get_match_history_and_retry_on_failure self PyNone account_id
                  [("start_at_match_id", PyInt match_start_index)] ;;
        while_remaining fuel' self account_id silently remaining_matches hist acc
    end
  else ret acc.

(** [self.__get_all_match_history_in_batches(account_id=None, silently=False,
    initial_hist=None, **kwargs)].  The local [hist] is assigned only when
    [initial_hist] is [None]. *)
Definition get_all_match_history_in_batches (fuel : nat) (self : Initialise)
    (account_id : pyval) (silently : bool) (initial_hist : pyobj) (kw : kwargs)
  : M (list pyobj) :=
  let match_start_index := 0 in
  hist <- (match initial_hist with
           | ObjNone =>
               h <- get_match_history_and_retry_on_failure self PyNone account_id
                      (("start_at_match_id", PyInt match_start_index) :: kw) ;;
               ret (Some h)
           | _ => ret None
           end) ;;
  hist <- read_local "hist" hist ;;
  remaining_matches <- item_int total_results "total_results" hist ;;
  while_remaining fuel self account_id silently remaining_matches hist [].

(** The [for each_hero in heroes_iterable] loop (lines 115-120). *)
Fixpoint for_each_hero (fuel : nat) (self : Initialise) (account_id : pyval)
    (silently : bool) (heroes : list Hero) (acc : list pyobj) : M (list pyobj) :=
  match heroes with
  | [] => ret acc
  | each_hero :: heroes' =>
      hero_matches <- get_all_match_history_in_batches fuel self account_id
                        silently ObjNone [("hero_id", PyInt (id each_hero))] ;;
      for_each_hero fuel self account_id silently heroes' (acc ++ hero_matches)
  end.

(** [self.get_all_matches_for_user(account_id, silently=False)] *)
Definition get_all_matches_for_user (fuel : nat) (self : Initialise)
    (account_id : pyval) (silently : bool) : M (list pyobj) :=
  hist <- get_match_history_and_retry_on_failure self PyNone account_id [] ;;
  total <- item_int total_results "total_results" hist ;;
  if total <? 500 then
    get_all_match_history_in_batches fuel self account_id silently hist []
  else
    heroes <- get_heroes self ;;
    hs <- item_heroes heroes ;;
    sleep 1 ;;;
    for_each_hero fuel self account_id silently hs [].

(** ** Vocabulary of the statements *)

(** The query [get_match_history] sends for given arguments. *)
Definition history_url (self : Initialise) (account_id : pyval) (kw : kwargs) : Url :=
  build_url self GET_MATCH_HISTORY
    (if dict_in "account_id" kw then kw else dict_set "account_id" account_id kw).

(** The query [get_match_details] sends for given arguments. *)
Definition details_url (self : Initialise) (mid : pyval) (kw : kwargs) : Url :=
  build_url self GET_MATCH_DETAILS
    (if dict_in "match_id" kw then kw else dict_set "match_id" mid kw).

(** The executor answers [url] with HTTP status [status], whenever asked. *)
Definition always_status (self : Initialise) (url : Url) (status : Z) : Prop :=
  forall w, exists req, executor self w url = Ret req /\ status_code req = status.

Definition is_auth_failure {A} (r : res A) : Prop :=
  exists key, r = Exc (APIAuthenticationError key).

(** The log of [n] failed attempts at [url] after the first one. *)
Fixpoint more_attempts (n : nat) (url : Url) : World :=
  match n with
  | O => []
  | S n' => EvBackoff :: EvGet url :: more_attempts n' url
  end.

(** The page request of line 88: the cursor and the account, nothing else. *)
Definition next_page (self : Initialise) (account_id : pyval) (cursor : Z)
  : M pyobj :=
  get_match_history_and_retry_on_failure self PyNone account_id
    [("start_at_match_id", PyInt cursor)].

(** That request as the executor sees it. *)
Definition next_page_url (self : Initialise) (account_id : pyval) (cursor : Z)
  : Url :=
  history_url self account_id
    [("start_at_match_seq", PyNone); ("start_at_match_id", PyInt cursor)].

(** The state of the walk at the head of its loop: the value of
    [remaining_matches], the page in [hist], the details in [matches] and
    the log. *)
Record loop_state : Type :=
  { st_remaining : Z;
    st_hist : pyobj;
    st_matches : list pyobj;
    st_world : World }.

(** The loop run from a state. *)
Definition run_loop (self : Initialise) (account_id : pyval) (silently : bool)
    (fuel : nat) (s : loop_state) : res (list pyobj) * World :=
  while_remaining fuel self account_id silently
    (st_remaining s) (st_hist s) (st_matches s) (st_world s).

(** One turn of the loop that comes back to its head: something remains,
    the details of every match of the page [h] are fetched, the page has a
    last match, and the page before that match is fetched. *)
Inductive turn (self : Initialise) (account_id : pyval)
  : loop_state -> loop_state -> Prop :=
| turn_page (remaining : Z) (h : HistoryPage) (front : list MatchSummary)
    (eachLast : MatchSummary) (acc acc' : list pyobj) (w wd w' : World)
    (hist' : pyobj) :
    0 < remaining ->
    for_each_match self (matches h) acc w = (Ret acc', wd) ->
    matches h = front ++ [eachLast] ->
    next_page self account_id (match_id eachLast - 1) (wd ++ [EvSleep 1])
      = (Ret hist', w') ->
    turn self account_id
      {| st_remaining := remaining; st_hist := ObjHistory h;
         st_matches := acc; st_world := w |}
      {| st_remaining := results_remaining h; st_hist := hist';
         st_matches := acc'; st_world := w' |}.

(** [n] turns in a row. *)
Inductive turns (self : Initialise) (account_id : pyval)
  : nat -> loop_state -> loop_state -> Prop :=
| turns_none (s : loop_state) : turns self account_id 0 s s
| turns_more (n : nat) (s1 s2 s3 : loop_state) :
    turn self account_id s1 s2 ->
    turns self account_id n s2 s3 ->
    turns self account_id (S n) s1 s3.

(** The least match id of a page ([0] for an empty one). *)
Definition min_match_id (batch : list MatchSummary) : Z :=
  match batch with
  | [] => 0
  | m :: batch' => fold_left Z.min (map match_id batch') (match_id m)
  end.

(** The page lists no match older than its last one, as the upstream does
    when it lists matches newest first. *)
Definition oldest_last (batch : list MatchSummary) (eachLast : MatchSummary) : Prop :=
  Forall (fun m => match_id eachLast <= match_id m) batch.

(** ** Upstreams to run the client against *)

Module Upstream.

Definition query_int (k : string) (url : Url) : option Z :=
  match dict_get k (api_query url) with
  | Some (PyInt z) => Some z
  | _ => None
  end.

Definition ok (body : pyobj) : res Response :=
  Ret {| status_code := 200; json := body |}.

(** The details of the match a details request asks for. *)
Definition details_of (url : Url) : pyobj :=
  ObjDetails {| md_match_id := match query_int "match_id" url with
                               | Some z => z
                               | None => 0
                               end |}.

(** An upstream that answers every request with the same status code and
    an empty body. *)
Definition answers (status : Z) : Executor :=
  fun _ _ => Ret {| status_code := status; json := ObjNone |}.

(** An upstream that answers every history request with the page [h]. *)
Definition one_page (h : HistoryPage) : Executor :=
  fun _ url =>
    match api_call url with
    | GET_MATCH_HISTORY => ok (ObjHistory h)
    | GET_MATCH_DETAILS => ok (details_of url)
    | GET_HEROES => ok (ObjHeroes [])
    end.

(** A stable upstream.  [db] lists the account's matches, newest first, as
    pairs of a match id and a hero id.  A history request selects the
    matches of the hero asked for, if any, not newer than the cursor, if one
    other than 0 is given, and gets the first [page_size] of them together
    with the counts. *)
Definition stable (db : list (Z * Z)) (heroes : list Hero) (page_size : nat)
  : Executor :=
  fun _ url =>
    match api_call url with
    | GET_MATCH_HISTORY =>
        let of_hero :=
          match query_int "hero_id" url with
          | Some hero => filter (fun m => snd m =? hero) db
          | None => db
          end in
        let selected :=
          match query_int "start_at_match_id" url with
          | Some cursor =>
              if cursor =? 0 then of_hero
              else filter (fun m => fst m <=? cursor) of_hero
          | None => of_hero
          end in
        let batch := firstn page_size selected in
        ok (ObjHistory
              {| num_results := Z.of_nat (List.length batch);
                 total_results := Z.of_nat (List.length selected);
                 results_remaining := Z.of_nat (List.length selected - List.length batch);
                 matches := map (fun m => {| match_id := fst m |}) batch |})
    | GET_MATCH_DETAILS => ok (details_of url)
    | GET_HEROES => ok (ObjHeroes heroes)
    end.

Definition client (ex : Executor) : Initialise :=
  {| api_key := "KEY"; language := "en_us"; executor := ex;
     logger := false; format := "json" |}.

(** Clients of an upstream that is always unavailable, and of one that
    always rejects the key. *)
Definition unavailable : Initialise := client (answers 503).

Definition forbidden : Initialise := client (answers 403).

(** The match ids of the details in a result. *)
Definition match_ids (result : list pyobj) : list Z :=
  flat_map (fun o => match o with ObjDetails d => [md_match_id d] | _ => [] end)
           result.

(** The history requests of a log, each as its hero filter and its cursor. *)
Definition history_requests (w : World) : list (option Z * option Z) :=
  flat_map (fun url => match api_call url with
                       | GET_MATCH_HISTORY =>
                           [(query_int "hero_id" url,
                             query_int "start_at_match_id" url)]
                       | _ => []
                       end)
           (requests_of w).

(** 600 matches, ids 1600 down to 1001, played with heroes 1, 2 and 3 in
    turn: 200 matches each. *)
Definition six_hundred : list (Z * Z) :=
  map (fun i => let mid := 1600 - Z.of_nat i in (mid, mid mod 3 + 1)) (seq 0 600).

(** A page that lists its older match first. *)
Definition older_first : HistoryPage :=
  {| num_results := 2; total_results := 2; results_remaining := 0;
     matches := [ {| match_id := 3 |}; {| match_id := 5 |} ] |}.

(** A page that lists its newer match first, as the upstream does. *)
Definition newer_first : HistoryPage :=
  {| num_results := 2; total_results := 2; results_remaining := 0;
     matches := [ {| match_id := 5 |}; {| match_id := 3 |} ] |}.

(** A page with nothing left after it and no match on it. *)
Definition empty_last_page : HistoryPage :=
  {| num_results := 0; total_results := 1; results_remaining := 0;
     matches := [] |}.

(** The [total_results] the first page of a history query reports. *)
Definition first_total (self : Initialise) (kw : kwargs) : option Z :=
  match fst (get_match_history self (PyInt 7) kw []) with
  | Ret (ObjHistory h) => Some (total_results h)
  | _ => None
  end.

Definition three_heroes : list Hero :=
  [ {| id := 1; localized_name := "Anti-Mage" |};
    {| id := 2; localized_name := "Axe" |};
    {| id := 3; localized_name := "Bane" |} ].

End Upstream.

(** ** Further vocabulary *)

(** The keys of a dictionary, in order. *)
Definition dict_keys (d : kwargs) : list string := map fst d.

(** The log of [j] attempts at [url] that failed and were waited after. *)
Fixpoint failed_attempts (j : nat) (url : Url) : World :=
  match j with
  | O => []
  | S j' => EvGet url :: EvBackoff :: failed_attempts j' url
  end.

(** An upstream that answers 503 as long as the log holds fewer than
    [failures] requests, and 200 with [body] from then on. *)
Definition recovers_after (failures : nat) (body : pyobj) : Executor :=
  fun w _ =>
    if (List.length (requests_of w) <? failures)%nat
    then Ret {| status_code := 503; json := ObjNone |}
    else Ret {| status_code := 200; json := body |}.

(** An upstream that cannot be reached: every call of the executor raises. *)
Definition unreachable : Executor := fun _ _ => Exc RequestException.

(** An attempt at [url] made at the log [w] fails: the executor raises, or
    answers 403 or 503. *)
Definition attempt_fails (self : Initialise) (w : World) (url : Url) : Prop :=
  match executor self w url with
  | Ret req => status_code req = 403 \/ status_code req = 503
  | Exc _ => True
  | OutOfFuel => False
  end.

(** The details the wrapper returns for a match when asked at some log,
    after the pause of one second. *)
Definition details_fetched (self : Initialise) (m : MatchSummary) (d : pyobj) : Prop :=
  exists w1 w2,
    get_match_details_and_retry_on_failure self (PyInt (match_id m)) []
      (w1 ++ [EvSleep 1]) = (Ret d, w2).

(** Every request of [l] comes right after a pause, a sleep or a backoff;
    [ready] says whether a pause came right before [l]. *)
Fixpoint paced (ready : bool) (l : World) : bool :=
  match l with
  | [] => true
  | EvGet _ :: l' => ready && paced false l'
  | _ :: l' => paced true l'
  end.

(** Whether a pause is the last thing that happened after [l]. *)
Fixpoint ready_after (ready : bool) (l : World) : bool :=
  match l with
  | [] => ready
  | EvGet _ :: l' => ready_after false l'
  | _ :: l' => ready_after true l'
  end.

(** The computation only adds to the log, and what it adds satisfies [P]. *)
Definition extends_log {A} (c : M A) (P : World -> Prop) : Prop :=
  forall w, exists new, snd (c w) = w ++ new /\ P new.

Definition paced_anywhere (new : World) : Prop :=
  forall ready, paced ready new = true.

Definition paced_after_pause (new : World) : Prop :=
  paced true new = true.

(** The walk of one hero returned [result], started at some log. *)
Definition hero_walked (fuel : nat) (self : Initialise) (account_id : pyval)
    (silently : bool) (hero : Hero) (result : list pyobj) : Prop :=
  exists w1 w2,
    get_all_match_history_in_batches fuel self account_id silently ObjNone
      [("hero_id", PyInt (id hero))] w1 = (Ret result, w2).

(** The upstream's matches are listed newest first: every match has a
    greater id than all the matches after it. *)
Fixpoint newest_first (db : list (Z * Z)) : Prop :=
  match db with
  | [] => True
  | m :: db' => Forall (fun m' => fst m' < fst m) db' /\ newest_first db'
  end.

(** The details the stable upstream holds for a match. *)
Definition detail_of_match (m : Z * Z) : pyobj :=
  ObjDetails {| md_match_id := fst m |}.

(** The page the stable upstream makes of the matches a query selects. *)
Definition page_of (page_size : nat) (selected : list (Z * Z)) : HistoryPage :=
  {| num_results := Z.of_nat (List.length (firstn page_size selected));
     total_results := Z.of_nat (List.length selected);
     results_remaining :=
       Z.of_nat (List.length selected - List.length (firstn page_size selected));
     matches := map (fun m => {| match_id := fst m |}) (firstn page_size selected) |}.

(** ** The ids of [get_player_summaries] *)




(** ** More upstreams *)

(** The upstream [ex], except that requests picked by [bad] are answered
    with 403. *)
Definition rejecting (bad : Url -> bool) (ex : Executor) : Executor :=
  fun w url =>
    if bad url then Ret {| status_code := 403; json := ObjNone |}
    else ex w url.

(** The details request for the match [mid]. *)
Definition asks_details_of (mid : Z) (url : Url) : bool :=
  match api_call url, Upstream.query_int "match_id" url with
  | GET_MATCH_DETAILS, Some z => z =? mid
  | _, _ => false
  end.

(** A history request filtered to the hero [hero]. *)
Definition asks_hero (hero : Z) (url : Url) : bool :=
  match api_call url, Upstream.query_int "hero_id" url with
  | GET_MATCH_HISTORY, Some z => z =? hero
  | _, _ => false
  end.


(** Three matches, newest first, and the stable upstream serving them in
    pages of two. *)
Definition three_matches : list (Z * Z) := [(12, 1); (11, 2); (10, 1)].

Definition small_upstream : Initialise :=
  Upstream.client (Upstream.stable three_matches Upstream.three_heroes 2).

(** The account of 600 matches, aggregated. *)
Definition large_upstream : Initialise :=
  Upstream.client (Upstream.stable Upstream.six_hundred Upstream.three_heroes 100).

Definition large_aggregation : res (list pyobj) * World :=
  get_all_matches_for_user 10 large_upstream (PyInt 7) true [].

(** The result of a run that returned ([[]] otherwise). *)
Definition returned {A} (r : res (list A)) : list A :=
  match r with
  | Ret a => a
  | _ => []
  end.

(** The upstream of the page that lists match 5 before match 3, refusing
    the details of match 3. *)
Definition without_match_3 : Initialise :=
  Upstream.client
    (rejecting (asks_details_of 3) (Upstream.one_page Upstream.newer_first)).

(** The small upstream, refusing the history of hero 2. *)
Definition without_hero_2 : Initialise :=
  Upstream.client
    (rejecting (asks_hero 2)
       (Upstream.stable three_matches Upstream.three_heroes 2)).

(** A client of an upstream that fails twice and then serves a page. *)
Definition flaky : Initialise :=
  Upstream.client (recovers_after 2 (ObjHistory Upstream.newer_first)).

(** The client the environment's key and an empty language give. *)
Definition from_environment : Initialise :=
  {| api_key := "ENVKEY"; language := "en_us";
     executor := Upstream.answers 200; logger := false; format := "json" |}.

(** ** The status code decides the outcome of a fetch *)

(** Both tests of [__check_http_err], taken one after the other. *)
Ltac by_status status :=
  destruct (status =? 403); [reflexivity|];
  destruct (status =? 503); reflexivity.

Section Fetch.

Variable self : Initialise.

Lemma check_http_err_cases (status : Z) (w : World) :
  check_http_err self status w =
    (if status =? 403 then Exc (APIAuthenticationError (Some (api_key self)))
     else if status =? 503 then Exc APITimeoutError
     else Ret false, w).
Proof.
  unfold check_http_err. by_status status.
Qed.

Lemma get_match_history_run account_id kw w req :
  executor self w (history_url self account_id kw) = Ret req ->
  get_match_history self account_id kw w =
    (if status_code req =? 403 then Exc (APIAuthenticationError (Some (api_key self)))
     else if status_code req =? 503 then Exc APITimeoutError
     else Ret (build req (history_url self account_id kw)),
     w ++ [EvGet (history_url self account_id kw)]).
Proof.
  intros Hex. unfold get_match_history, bind, call_executor.
  fold (history_url self account_id kw). rewrite Hex.
  rewrite check_http_err_cases.
  by_status (status_code req).
Qed.

Lemma get_match_details_run mid kw w req :
  executor self w (details_url self mid kw) = Ret req ->
  get_match_details self mid kw w =
    (if status_code req =? 403 then Exc (APIAuthenticationError (Some (api_key self)))
     else if status_code req =? 503 then Exc APITimeoutError
     else Ret (build req (details_url self mid kw)),
     w ++ [EvGet (details_url self mid kw)]).
Proof.
  intros Hex. unfold get_match_details, bind, call_executor.
  fold (details_url self mid kw). rewrite Hex.
  rewrite check_http_err_cases.
  by_status (status_code req).
Qed.

(** What the three-way test on the status code amounts to. *)
Lemma status_outcome (status : Z) (body : pyobj) :
  let r := if status =? 403 then Exc (APIAuthenticationError (Some (api_key self)))
           else if status =? 503 then Exc APITimeoutError
           else Ret body in
  (is_auth_failure r <-> status = 403) /\
  (r = Exc APITimeoutError <-> status = 503) /\
  (status <> 403 -> status <> 503 -> r = Ret body).
Proof.
  cbn zeta.
  destruct (Z.eqb_spec status 403) as [E3|N3].
  - subst. repeat split; try lia; try discriminate.
    intros _. now exists (Some (api_key self)).
  - destruct (Z.eqb_spec status 503) as [E5|N5].
    + subst. repeat split; try lia; try reflexivity.
      intros [k Hk]. discriminate.
    + repeat split; try lia; try discriminate; try reflexivity.
      intros [k Hk]. discriminate.
Qed.

End Fetch.

(** C7: whatever status code the executor returns, [get_match_history] and
    [get_match_details] raise [APIAuthenticationError] exactly when it is 403,
    raise [APITimeoutError] exactly when it is 503, and for every other code
    raise nothing and return the parsed body of the response. *)
Theorem fetch_raises_by_status_code (self : Initialise) (w : World) (req : Response) :
  (forall account_id kw,
      executor self w (history_url self account_id kw) = Ret req ->
      let r := fst (get_match_history self account_id kw w) in
      (is_auth_failure r <-> status_code req = 403) /\
      (r = Exc APITimeoutError <-> status_code req = 503) /\
      (status_code req <> 403 -> status_code req <> 503 ->
       r = Ret (build req (history_url self account_id kw)))) /\
  (forall mid kw,
      executor self w (details_url self mid kw) = Ret req ->
      let r := fst (get_match_details self mid kw w) in
      (is_auth_failure r <-> status_code req = 403) /\
      (r = Exc APITimeoutError <-> status_code req = 503) /\
      (status_code req <> 403 -> status_code req <> 503 ->
       r = Ret (build req (details_url self mid kw)))).
Proof.
  split; intros a kw Hex; cbn zeta.
  - rewrite (get_match_history_run self a kw w req Hex). cbn [fst].
    apply status_outcome.
  - rewrite (get_match_details_run self a kw w req Hex). cbn [fst].
    apply status_outcome.
Qed.

(** ** The retry wrappers *)

Lemma requests_of_app (w1 w2 : World) :
  requests_of (w1 ++ w2) = requests_of w1 ++ requests_of w2.
Proof.
  induction w1 as [|ev w1 IH]; [reflexivity|].
  destruct ev; cbn; rewrite IH; reflexivity.
Qed.

Lemma requests_of_more_attempts (n : nat) (url : Url) :
  requests_of (more_attempts n url) = repeat url n.
Proof.
  induction n as [|n IH]; cbn; [reflexivity | now rewrite IH].
Qed.

(** A function that raises [e] at every attempt is attempted once and then
    once more for every attempt that was left; the exception of the last
    attempt comes out as it was raised. *)
Lemma retrying_call_always_raises {A} (fn : M A) (e : exn) (url : Url) :
  (forall w, fn w = (Exc e, w ++ [EvGet url])) ->
  forall left w,
    retrying_call left fn w = (Exc e, w ++ EvGet url :: more_attempts left url).
Proof.
  intros Hfn left.
  induction left as [|left IH]; intros w; cbn [retrying_call more_attempts].
  - now rewrite Hfn.
  - rewrite Hfn, IH. f_equal.
    rewrite <- !app_assoc. reflexivity.
Qed.

(** A function that returns at the first attempt is attempted once. *)
Lemma retrying_call_returns {A} (fn : M A) (left : nat) (w w' : World) (a : A) :
  fn w = (Ret a, w') -> retrying_call left fn w = (Ret a, w').
Proof.
  intros Hfn. destruct left; cbn; now rewrite Hfn.
Qed.

Section Wrappers.

Variable self : Initialise.

Lemma history_fails_with (account_id : pyval) (kw : kwargs) (status : Z) (e : exn) :
  always_status self (history_url self account_id kw) status ->
  (forall body : pyobj,
      (if status =? 403 then Exc (APIAuthenticationError (Some (api_key self)))
       else if status =? 503 then Exc APITimeoutError
       else Ret body) = Exc e) ->
  forall w, get_match_history self account_id kw w =
            (Exc e, w ++ [EvGet (history_url self account_id kw)]).
Proof.
  intros Hst He w. destruct (Hst w) as (req & Hex & Hcode).
  rewrite (get_match_history_run self account_id kw w req Hex).
  rewrite Hcode, He. reflexivity.
Qed.

Lemma details_fails_with (mid : pyval) (kw : kwargs) (status : Z) (e : exn) :
  always_status self (details_url self mid kw) status ->
  (forall body : pyobj,
      (if status =? 403 then Exc (APIAuthenticationError (Some (api_key self)))
       else if status =? 503 then Exc APITimeoutError
       else Ret body) = Exc e) ->
  forall w, get_match_details self mid kw w =
            (Exc e, w ++ [EvGet (details_url self mid kw)]).
Proof.
  intros Hst He w. destruct (Hst w) as (req & Hex & Hcode).
  rewrite (get_match_details_run self mid kw w req Hex).
  rewrite Hcode, He. reflexivity.
Qed.

(** Both wrappers, for a status code that makes every attempt raise [e]. *)
Lemma wrappers_exhaust (status : Z) (e : exn) :
  (forall body : pyobj,
      (if status =? 403 then Exc (APIAuthenticationError (Some (api_key self)))
       else if status =? 503 then Exc APITimeoutError
       else Ret body) = Exc e) ->
  (forall seq account_id kw w,
      let url := history_url self account_id (("start_at_match_seq", seq) :: kw) in
      always_status self url status ->
      get_match_history_and_retry_on_failure self seq account_id kw w
        = (Exc e, w ++ EvGet url :: more_attempts 4 url) /\
      requests_of (w ++ EvGet url :: more_attempts 4 url)
        = requests_of w ++ repeat url 5) /\
  (forall mid kw w,
      let url := details_url self mid kw in
      always_status self url status ->
      get_match_details_and_retry_on_failure self mid kw w
        = (Exc e, w ++ EvGet url :: more_attempts 4 url) /\
      requests_of (w ++ EvGet url :: more_attempts 4 url)
        = requests_of w ++ repeat url 5).
Proof.
  intros He. split.
  - intros seq account_id kw w url Hst. split.
    + unfold get_match_history_and_retry_on_failure, retry.
      apply retrying_call_always_raises.
      now apply history_fails_with with (status := status).
    + rewrite requests_of_app. cbn [requests_of].
      now rewrite requests_of_more_attempts.
  - intros mid kw w url Hst. split.
    + unfold get_match_details_and_retry_on_failure, retry.
      apply retrying_call_always_raises.
      now apply details_fails_with with (status := status).
    + rewrite requests_of_app. cbn [requests_of].
      now rewrite requests_of_more_attempts.
Qed.

End Wrappers.

(** C4: when every attempt of the wrapped fetch raises [APITimeoutError]
    (the executor answers 503 whenever asked), each retry wrapper calls the
    executor exactly five times, with a backoff between two attempts, and
    then raises the [APITimeoutError] of the last attempt as it is. *)
Theorem retry_gives_up_after_five_timeouts (self : Initialise) :
  (forall seq account_id kw w,
      let url := history_url self account_id (("start_at_match_seq", seq) :: kw) in
      always_status self url 503 ->
      get_match_history_and_retry_on_failure self seq account_id kw w
        = (Exc APITimeoutError, w ++ EvGet url :: more_attempts 4 url) /\
      requests_of (w ++ EvGet url :: more_attempts 4 url)
        = requests_of w ++ repeat url 5) /\
  (forall mid kw w,
      let url := details_url self mid kw in
      always_status self url 503 ->
      get_match_details_and_retry_on_failure self mid kw w
        = (Exc APITimeoutError, w ++ EvGet url :: more_attempts 4 url) /\
      requests_of (w ++ EvGet url :: more_attempts 4 url)
        = requests_of w ++ repeat url 5).
Proof.
  apply (wrappers_exhaust self 503 APITimeoutError). reflexivity.
Qed.

(** C3, as the code has it: the decorator is given no exception filter, so
    an [APIAuthenticationError] is retried like any other exception.  When
    the executor answers 403 whenever asked, each retry wrapper calls the
    executor exactly five times and then raises the [APIAuthenticationError]
    of the last attempt. *)
Theorem retry_repeats_authentication_failures (self : Initialise) :
  (forall seq account_id kw w,
      let url := history_url self account_id (("start_at_match_seq", seq) :: kw) in
      always_status self url 403 ->
      get_match_history_and_retry_on_failure self seq account_id kw w
        = (Exc (APIAuthenticationError (Some (api_key self))),
           w ++ EvGet url :: more_attempts 4 url) /\
      requests_of (w ++ EvGet url :: more_attempts 4 url)
        = requests_of w ++ repeat url 5) /\
  (forall mid kw w,
      let url := details_url self mid kw in
      always_status self url 403 ->
      get_match_details_and_retry_on_failure self mid kw w
        = (Exc (APIAuthenticationError (Some (api_key self))),
           w ++ EvGet url :: more_attempts 4 url) /\
      requests_of (w ++ EvGet url :: more_attempts 4 url)
        = requests_of w ++ repeat url 5).
Proof.
  apply (wrappers_exhaust self 403 (APIAuthenticationError (Some (api_key self)))).
  reflexivity.
Qed.

(** ** The batch walk, one page at a time *)

Lemma bind_returns {A B} (c : M A) (k : A -> M B) (w w' : World) (b : B) :
  bind c k w = (Ret b, w') ->
  exists a w1, c w = (Ret a, w1) /\ k a w1 = (Ret b, w').
Proof.
  unfold bind. destruct (c w) as [[a| |] w1]; try discriminate.
  intros H. now exists a, w1.
Qed.

Lemma bind_run {A B} (c : M A) (k : A -> M B) (w w1 : World) (a : A) :
  c w = (Ret a, w1) -> bind c k w = k a w1.
Proof.
  intros H. unfold bind. now rewrite H.
Qed.

Lemma item_last_returns {A} (l : list A) (w w' : World) (x : A) :
  item_last l w = (Ret x, w') -> (exists front, l = front ++ [x]) /\ w' = w.
Proof.
  unfold item_last. destruct (rev l) as [|y tl] eqn:Hrev; [discriminate|].
  intros H. injection H as -> ->. split; [|reflexivity].
  exists (rev tl). rewrite <- (rev_involutive l), Hrev. reflexivity.
Qed.

Lemma item_last_app {A} (front : list A) (x : A) :
  item_last (front ++ [x]) = ret x.
Proof.
  unfold item_last. rewrite rev_app_distr. reflexivity.
Qed.

Lemma next_start_index_returns (hist : pyobj) (w w' : World) (cursor : Z) :
  next_start_index hist w = (Ret cursor, w') ->
  exists front eachLast,
    item_matches hist w = (Ret (front ++ [eachLast]), w) /\
    cursor = match_id eachLast - 1 /\ w' = w.
Proof.
  unfold next_start_index. intros H.
  apply bind_returns in H as (batch & w1 & Hbatch & H).
  apply bind_returns in H as (eachLast & w2 & Hlast & H).
  injection H as <- <-.
  apply item_last_returns in Hlast as [[front ->] ->].
  assert (w1 = w) as -> by (destruct hist; inversion Hbatch; reflexivity).
  now exists front, eachLast.
Qed.

Lemma get_match_history_world (self : Initialise) (account_id : pyval)
    (kw : kwargs) (w : World) :
  snd (get_match_history self account_id kw w)
    = w ++ [EvGet (history_url self account_id kw)].
Proof.
  unfold get_match_history, bind, call_executor.
  fold (history_url self account_id kw).
  destruct (executor self w (history_url self account_id kw)) as [req| |];
    try reflexivity.
  rewrite check_http_err_cases.
  by_status (status_code req).
Qed.

Lemma retrying_call_ends_with_request {A} (fn : M A) (url : Url) :
  (forall w, snd (fn w) = w ++ [EvGet url]) ->
  forall left w, exists before,
    snd (retrying_call left fn w) = before ++ [EvGet url].
Proof.
  intros Hfn left.
  induction left as [|left IH]; intros w; cbn [retrying_call];
    specialize (Hfn w); destruct (fn w) as [[a|e|] w1]; cbn [snd] in *;
    subst w1; try (now exists w).
  apply IH.
Qed.

(** The test [remaining_matches > 0] of a run [H], when something remains. *)
Ltac loop_entered H :=
  match type of H with
  | context [?remaining >? 0] =>
      replace (remaining >? 0) with true in H
        by (symmetry; rewrite Z.gtb_ltb; apply Z.ltb_lt; lia)
  end.

Section Walk.

Variable self : Initialise.
Variable account_id : pyval.
Variable silently : bool.

(** One turn of the loop on a page [h], entered with [remaining > 0]. *)
Lemma while_remaining_turn (fuel : nat) (remaining : Z) (h : HistoryPage)
    (acc : list pyobj) (w : World) :
  0 < remaining ->
  while_remaining (S fuel) self account_id silently remaining (ObjHistory h) acc w =
    (acc' <- for_each_match self (matches h) acc ;;
     cursor <- next_start_index (ObjHistory h) ;;
     sleep 1 ;;;
     hist' <- next_page self account_id cursor ;;
     while_remaining fuel self account_id silently (results_remaining h) hist' acc') w.
Proof.
  intros Hpos. cbn [while_remaining].
  assert (E : (remaining >? 0) = true) by (rewrite Z.gtb_ltb; apply Z.ltb_lt; lia).
  rewrite E. destruct silently; reflexivity.
Qed.

(** The loop is not entered when nothing remains. *)
Lemma while_remaining_done (fuel : nat) (remaining : Z) (hist : pyobj)
    (acc : list pyobj) (w : World) :
  remaining <= 0 ->
  while_remaining fuel self account_id silently remaining hist acc w = (Ret acc, w).
Proof.
  intros Hle.
  assert (E : (remaining >? 0) = false) by (rewrite Z.gtb_ltb; apply Z.ltb_ge; lia).
  destruct fuel; cbn [while_remaining]; rewrite E; reflexivity.
Qed.

Lemma next_page_ends_with_request (cursor : Z) (w : World) :
  exists before,
    snd (next_page self account_id cursor w) = before ++ [EvGet (next_page_url self account_id cursor)].
Proof.
  unfold next_page, get_match_history_and_retry_on_failure, retry.
  apply retrying_call_ends_with_request.
  intros w0. apply get_match_history_world.
Qed.

(** A walk that returns went through a row of turns, no more than its fuel,
    and stopped at a state where nothing remains: its result and its log are
    those of that state. *)
Lemma run_loop_returns_turns (fuel : nat) :
  forall (s : loop_state) (result : list pyobj) (w' : World),
    run_loop self account_id silently fuel s = (Ret result, w') ->
    exists n s',
      (n <= fuel)%nat /\ turns self account_id n s s' /\
      st_remaining s' <= 0 /\ st_matches s' = result /\ st_world s' = w'.
Proof.
  induction fuel as [|fuel IH]; intros [remaining hist acc w] result w' Hrun;
    unfold run_loop in Hrun; cbn [st_remaining st_hist st_matches st_world] in Hrun;
    (destruct (Z_lt_le_dec 0 remaining) as [Hpos|Hstop];
     [| rewrite while_remaining_done in Hrun by assumption;
        injection Hrun as <- <-;
        exists 0%nat, {| st_remaining := remaining; st_hist := hist;
                         st_matches := acc; st_world := w |};
        repeat split; [lia | constructor | assumption]]).
  - cbn [while_remaining] in Hrun.
    loop_entered Hrun.
    discriminate.
  - destruct hist as [|h|d|hs];
      try (cbn [while_remaining] in Hrun;
           loop_entered Hrun;
           discriminate).
    rewrite while_remaining_turn in Hrun by assumption.
    apply bind_returns in Hrun as (acc' & wd & Hdetails & Hrun).
    apply bind_returns in Hrun as (cursor & w1 & Hcursor & Hrun).
    apply next_start_index_returns in Hcursor as (front & eachLast & Hm & -> & ->).
    cbn in Hm. injection Hm as Hm.
    apply bind_returns in Hrun as ([] & w2 & Hsleep & Hrun).
    injection Hsleep as <-.
    apply bind_returns in Hrun as (hist' & w3 & Hpage & Hrun).
    destruct (IH {| st_remaining := results_remaining h; st_hist := hist';
                    st_matches := acc'; st_world := w3 |} result w' Hrun)
      as (n & s' & Hn & Hturns & Hrest).
    exists (S n), s'. split; [lia|]. split; [|exact Hrest].
    eapply turns_more; [|exact Hturns].
    econstructor; eassumption.
Qed.

(** A row of turns that ends where nothing remains is a walk that returns,
    given fuel for every turn. *)
Lemma turns_run_loop (n : nat) (s s' : loop_state) :
  turns self account_id n s s' ->
  st_remaining s' <= 0 ->
  forall fuel, (n <= fuel)%nat ->
               run_loop self account_id silently fuel s = (Ret (st_matches s'), st_world s').
Proof.
  induction 1 as [s|n s1 s2 s3 Hturn Hturns IH]; intros Hstop fuel Hfuel.
  - unfold run_loop. now apply while_remaining_done.
  - destruct fuel as [|fuel]; [lia|].
    destruct Hturn as [remaining h front eachLast acc acc' w wd w' hist'
                         Hpos Hdetails Hm Hpage].
    unfold run_loop. cbn [st_remaining st_hist st_matches st_world].
    rewrite while_remaining_turn by assumption.
    rewrite (bind_run _ _ _ _ _ Hdetails).
    unfold next_start_index. cbn [item_matches]. rewrite Hm.
    unfold bind at 1. unfold ret at 1. unfold bind at 1.
    rewrite item_last_app. unfold ret at 1. unfold bind at 1. unfold ret at 1.
    unfold bind at 1. unfold sleep at 1.
    rewrite (bind_run _ _ _ _ _ Hpage).
    apply (IH Hstop fuel). lia.
Qed.

(** A row of turns that is not empty has a last turn. *)
Lemma turns_last (n : nat) (s s' : loop_state) :
  turns self account_id (S n) s s' ->
  exists s_last, turns self account_id n s s_last /\ turn self account_id s_last s'.
Proof.
  revert s. induction n as [|n IH]; intros s Hturns;
    inversion Hturns as [|? ? s2 ? Hturn Hrest]; subst.
  - inversion Hrest; subst. exists s. split; [constructor | assumption].
  - destruct (IH s2 Hrest) as (s_last & Hfront & Hlast).
    exists s_last. split; [|assumption].
    eapply turns_more; eassumption.
Qed.

End Walk.

Lemma next_start_index_last (h : HistoryPage) (front : list MatchSummary)
    (eachLast : MatchSummary) (w : World) :
  matches h = front ++ [eachLast] ->
  next_start_index (ObjHistory h) w = (Ret (match_id eachLast - 1), w).
Proof.
  intros Hm. unfold next_start_index. cbn [item_matches].
  rewrite Hm. unfold bind, ret. rewrite item_last_app. reflexivity.
Qed.

Lemma min_match_id_oldest_last (front : list MatchSummary) (eachLast : MatchSummary) :
  oldest_last (front ++ [eachLast]) eachLast ->
  min_match_id (front ++ [eachLast]) = match_id eachLast.
Proof.
  unfold oldest_last, min_match_id. intros Hall.
  assert (Hfold : forall l a,
             Forall (fun z => match_id eachLast <= z) l ->
             match_id eachLast <= a ->
             (In (match_id eachLast) l \/ a = match_id eachLast) ->
             fold_left Z.min l a = match_id eachLast).
  { induction l as [|z l IHl]; intros a Hl Ha Hin; cbn [fold_left].
    - destruct Hin as [[]|]; assumption.
    - inversion Hl; subst. apply IHl; [assumption | lia |].
      destruct Hin as [[->|Hin]| ->]; [right; lia | now left | right; lia]. }
  destruct front as [|m front]; [reflexivity|].
  cbn [app] in *. inversion Hall as [|? ? Hm Hrest]; subst.
  apply Hfold.
  - rewrite Forall_forall in *. intros z Hz.
    apply in_map_iff in Hz as (m' & <- & Hm'). now apply Hrest.
  - assumption.
  - left. rewrite map_app. apply in_or_app. right. now left.
Qed.

(** C9: a walk that enters its loop and returns went through a row of
    turns to a last page [h], the one whose [results_remaining] is not
    positive.  The details of that page's matches complete the result; then
    exactly one more page is requested (cursor: the page's last match id
    minus 1), and the walk returns with that request as the last event of
    its log: the extra page is fetched, none of its matches is, and the
    result was complete before it came.  The second part gives the run of
    such a last turn: the details, the pause, the extra request, and the
    accumulated result whatever page came back. *)
Theorem walk_requests_one_page_past_the_last (self : Initialise)
    (account_id : pyval) (silently : bool) :
  (forall fuel remaining hist acc w w' result,
      0 < remaining ->
      while_remaining fuel self account_id silently remaining hist acc w
        = (Ret result, w') ->
      exists n remaining_last h front eachLast acc_last w_last wd extra before,
        turns self account_id n
          {| st_remaining := remaining; st_hist := hist;
             st_matches := acc; st_world := w |}
          {| st_remaining := remaining_last; st_hist := ObjHistory h;
             st_matches := acc_last; st_world := w_last |} /\
        0 < remaining_last /\
        results_remaining h <= 0 /\
        matches h = front ++ [eachLast] /\
        for_each_match self (matches h) acc_last w_last = (Ret result, wd) /\
        next_page self account_id (match_id eachLast - 1) (wd ++ [EvSleep 1])
          = (Ret extra, w') /\
        w' = before ++ [EvGet (next_page_url self account_id (match_id eachLast - 1))]) /\
  (forall fuel remaining h front eachLast acc w result wd,
      0 < remaining ->
      results_remaining h <= 0 ->
      matches h = front ++ [eachLast] ->
      for_each_match self (matches h) acc w = (Ret result, wd) ->
      while_remaining (S fuel) self account_id silently remaining (ObjHistory h) acc w
        = (next_page self account_id (match_id eachLast - 1) ;;; ret result)
            (wd ++ [EvSleep 1])).
Proof.
  split.
  - intros fuel remaining hist acc w w' result Hpos Hrun.
    destruct (run_loop_returns_turns self account_id silently fuel
                {| st_remaining := remaining; st_hist := hist;
                   st_matches := acc; st_world := w |} result w' Hrun)
      as (n & s' & _ & Hturns & Hstop & <- & <-).
    destruct n as [|n].
    { inversion Hturns; subst. cbn in Hstop. lia. }
    apply turns_last in Hturns as (s_last & Hfront & Hlast).
    destruct Hlast as [remaining_last h front eachLast acc_last acc' w_last wd w'
                         extra Hlastpos Hdetails Hm Hpage].
    cbn [st_remaining st_matches st_world] in *.
    destruct (next_page_ends_with_request self account_id
                (match_id eachLast - 1) (wd ++ [EvSleep 1])) as [before Hend].
    rewrite Hpage in Hend. cbn [snd] in Hend.
    exists n, remaining_last, h, front, eachLast, acc_last, w_last, wd, extra, before.
    repeat split; assumption.
  - intros fuel remaining h front eachLast acc w result wd Hpos Hstop Hm Hd.
    rewrite while_remaining_turn by assumption.
    rewrite (bind_run _ _ _ _ _ Hd).
    rewrite (bind_run _ _ _ _ _ (next_start_index_last h front eachLast wd Hm)).
    unfold bind at 1. unfold sleep at 1. unfold bind.
    destruct (next_page self account_id (match_id eachLast - 1) (wd ++ [EvSleep 1]))
      as [[extra|e|] w2]; try reflexivity.
    now rewrite while_remaining_done.
Qed.

(** C5, as the code has it: after a page that is not empty the next page is
    requested with the cursor [match id of the page's last match - 1], and
    that request carries this cursor as [start_at_match_id].  When the page
    lists no match older than its last one, the cursor is the least match id
    of the page minus 1 and lies below every match id of the page. *)
Theorem next_cursor_is_last_match_id_minus_one (self : Initialise)
    (account_id : pyval) (silently : bool) (fuel : nat) (remaining : Z)
    (h : HistoryPage) (front : list MatchSummary) (eachLast : MatchSummary)
    (acc acc' : list pyobj) (w wd : World) :
  0 < remaining ->
  matches h = front ++ [eachLast] ->
  for_each_match self (matches h) acc w = (Ret acc', wd) ->
  let cursor := match_id eachLast - 1 in
  while_remaining (S fuel) self account_id silently remaining (ObjHistory h) acc w
    = (hist' <- next_page self account_id cursor ;;
       while_remaining fuel self account_id silently (results_remaining h) hist' acc')
        (wd ++ [EvSleep 1]) /\
  (exists before,
      snd (next_page self account_id cursor (wd ++ [EvSleep 1]))
        = before ++ [EvGet (next_page_url self account_id cursor)]) /\
  dict_get "start_at_match_id" (api_query (next_page_url self account_id cursor))
    = Some (PyInt cursor) /\
  (oldest_last (matches h) eachLast ->
   cursor = min_match_id (matches h) - 1 /\
   Forall (fun m => cursor < match_id m) (matches h)).
Proof.
  intros Hpos Hm Hd cursor. repeat split.
  - rewrite while_remaining_turn by assumption.
    rewrite (bind_run _ _ _ _ _ Hd).
    rewrite (bind_run _ _ _ _ _ (next_start_index_last h front eachLast wd Hm)).
    reflexivity.
  - apply next_page_ends_with_request.
  - rewrite Hm in H. rewrite Hm.
    now rewrite (min_match_id_oldest_last front eachLast H).
  - unfold oldest_last in H. rewrite Forall_forall in *.
    intros m Hin. specialize (H m Hin). unfold cursor. lia.
Qed.

(** The request for the next page never carries a hero filter. *)
Lemma next_page_url_has_no_hero (self : Initialise) (account_id : pyval) (cursor : Z) :
  dict_get "hero_id" (api_query (next_page_url self account_id cursor)) = None.
Proof. reflexivity. Qed.

(** ** The two branches of [get_all_matches_for_user] *)

(** C1, on the code: in the branch for fewer than 500 results the first
    page is passed as [initial_hist], the walk then never assigns its local
    [hist], and reading it raises [UnboundLocalError]: no result is returned,
    whatever the account. *)
Theorem under_cap_branch_raises_unbound_local (fuel : nat) (self : Initialise)
    (account_id : pyval) (silently : bool) (w w1 : World) (h : HistoryPage) :
  get_match_history_and_retry_on_failure self PyNone account_id [] w
    = (Ret (ObjHistory h), w1) ->
  total_results h < 500 ->
  get_all_matches_for_user fuel self account_id silently w
    = (Exc (UnboundLocalError "hist"), w1).
Proof.
  intros Hfirst Hcap. unfold get_all_matches_for_user.
  rewrite (bind_run _ _ _ _ _ Hfirst).
  unfold bind at 1. cbn [item_int ret].
  replace (total_results h <? 500) with true by (symmetry; apply Z.ltb_lt; lia).
  reflexivity.
Qed.

(** C2, on the code: an account of 600 matches played with three heroes,
    200 each, served by a stable upstream in pages of 100.  The first request
    of each hero's walk carries [hero_id]; every later one carries only the
    cursor.  The walks therefore run on through the matches of all heroes:
    1203 details come back instead of 600, the oldest match three times. *)
Theorem hero_filter_is_lost_after_the_first_page :
  let self := Upstream.client (Upstream.stable Upstream.six_hundred Upstream.three_heroes 100) in
  let run := get_all_matches_for_user 10 self (PyInt 7) true [] in
  Upstream.first_total self [] = Some 600 /\
  map (fun hero => Upstream.first_total self [("hero_id", PyInt (id hero))])
      Upstream.three_heroes = [Some 200; Some 200; Some 200] /\
  Upstream.history_requests (snd run) =
    [ (None, None);
      (Some 1, Some 0); (None, Some 1301); (None, Some 1201); (None, Some 1101);
      (None, Some 1001); (None, Some 1000);
      (Some 2, Some 0); (None, Some 1302); (None, Some 1202); (None, Some 1102);
      (None, Some 1002); (None, Some 1000);
      (Some 3, Some 0); (None, Some 1300); (None, Some 1200); (None, Some 1100);
      (None, Some 1000) ] /\
  match fst run with
  | Ret result =>
      List.length result = 1203%nat /\
      count_occ Z.eq_dec (Upstream.match_ids result) 1001 = 3%nat
  | _ => False
  end.
Proof.
  vm_compute. repeat split; reflexivity.
Qed.

(** C6, on the code: a turn of the loop on a page without matches raises
    [IndexError] at [hist['matches'][-1]], whatever [results_remaining]
    says; the walk does not come to its end. *)
Theorem empty_page_raises_index_error (fuel : nat) (self : Initialise)
    (account_id : pyval) (silently : bool) (remaining : Z) (h : HistoryPage)
    (acc : list pyobj) (w : World) :
  0 < remaining ->
  matches h = [] ->
  while_remaining (S fuel) self account_id silently remaining (ObjHistory h) acc w
    = (Exc IndexError, w).
Proof.
  intros Hpos Hm. rewrite while_remaining_turn by assumption.
  rewrite Hm. unfold next_start_index. cbn [item_matches for_each_match].
  rewrite Hm. reflexivity.
Qed.

(** ** Construction of the client *)

(** C8, as the code has it: construction fails, with
    [APIAuthenticationError], exactly when the [api_key] argument is [None]
    or the empty string and [D2_API_KEY] is not in the environment; an
    [api_key] that is not empty is the key of the client whatever the
    environment holds; and a client that was constructed has a key, so the
    fetch operations never find it missing. *)
Theorem init_fails_iff_no_key (environ : list (string * string))
    (requests_get : Executor) (key : option string) (ex : option Executor)
    (lang : option string) (logging : bool) :
  let r := init environ requests_get key ex lang logging in
  (r = Exc (APIAuthenticationError None) <->
   (key = None \/ key = Some "") /\ environ_get "D2_API_KEY" environ = None) /\
  (forall k, key = Some k -> k <> "" ->
             exists self, r = Ret self /\ api_key self = k) /\
  (forall k, (key = None \/ key = Some "") ->
             environ_get "D2_API_KEY" environ = Some k ->
             exists self, r = Ret self /\ api_key self = k) /\
  (forall e, r = Exc e -> e = APIAuthenticationError None) /\
  r <> OutOfFuel.
Proof.
  cbn zeta. unfold init.
  destruct key as [k|]; cbn [truthy].
  - destruct (String.eqb_spec k "") as [->|Hne]; cbn [negb].
    + destruct (environ_get "D2_API_KEY" environ) as [ek|].
      * repeat split; try discriminate.
        -- intros [_ H]. discriminate.
        -- intros k0 H Hk0. injection H as <-. now contradiction Hk0.
        -- intros k0 _ H. injection H as <-. eexists. split; reflexivity.
      * repeat split; try discriminate; auto.
        -- intros k0 H Hk0. injection H as <-. now contradiction Hk0.
        -- intros e H. now injection H as <-.
    + repeat split; try discriminate.
      * intros [[H|H] _]; [discriminate | injection H as ->; now contradiction Hne].
      * intros k0 H _. injection H as <-. eexists. split; reflexivity.
      * intros k0 [H|H]; [discriminate | injection H as ->; now contradiction Hne].
  - destruct (environ_get "D2_API_KEY" environ) as [ek|].
    + repeat split; try discriminate.
      * intros [_ H]. discriminate.
      * intros k0 _ H. injection H as <-. eexists. split; reflexivity.
    + repeat split; try discriminate; auto.
      intros e H. now injection H as <-.
Qed.

(** ** Steam identifiers *)

(** C10: [convert_to_64_bit] adds 76561197960265728 to a number below it and
    leaves any other number as it is; on a number that is not negative it is
    therefore idempotent, and its result is at least 76561197960265728. *)
Theorem convert_to_64_bit_cases :
  min64b = 76561197960265728 /\
  (forall n, n < min64b -> convert_to_64_bit n = n + min64b) /\
  (forall n, min64b <= n -> convert_to_64_bit n = n) /\
  (forall n, 0 <= n ->
             convert_to_64_bit (convert_to_64_bit n) = convert_to_64_bit n /\
             min64b <= convert_to_64_bit n).
Proof.
  assert (Hlow : forall n, n < min64b -> convert_to_64_bit n = n + min64b).
  { intros n Hn. unfold convert_to_64_bit.
    destruct (Z.ltb_spec n min64b); [reflexivity | lia]. }
  assert (Hhigh : forall n, min64b <= n -> convert_to_64_bit n = n).
  { intros n Hn. unfold convert_to_64_bit.
    destruct (Z.ltb_spec n min64b); [lia | reflexivity]. }
  repeat split; try assumption.
  - destruct (Z_lt_le_dec n min64b) as [Hn|Hn].
    + rewrite (Hlow n Hn). apply Hhigh. lia.
    + now rewrite !(Hhigh n Hn).
  - destruct (Z_lt_le_dec n min64b) as [Hn|Hn].
    + rewrite (Hlow n Hn). lia.
    + now rewrite (Hhigh n Hn).
Qed.

(** ** The statements at concrete inputs *)

(** An upstream that answers 403: both fetch operations raise
    [APIAuthenticationError]. *)
Lemma fetch_raises_by_status_code_at_403 :
  is_auth_failure (fst (get_match_history Upstream.forbidden (PyInt 7) [] [])) /\
  is_auth_failure (fst (get_match_details Upstream.forbidden (PyInt 42) [] [])).
Proof.
  pose proof (fetch_raises_by_status_code Upstream.forbidden []
                {| status_code := 403; json := ObjNone |}) as [Hhist Hdet].
  split.
  - apply (proj1 (Hhist (PyInt 7) [] eq_refl)). reflexivity.
  - apply (proj1 (Hdet (PyInt 42) [] eq_refl)). reflexivity.
Defined.

(** The two failing upstreams answer as their names say. *)
Lemma always_unavailable (url : Url) : always_status Upstream.unavailable url 503.
Proof.
  intros w. eexists. split; reflexivity.
Defined.

Lemma always_forbidden (url : Url) : always_status Upstream.forbidden url 403.
Proof.
  intros w. eexists. split; reflexivity.
Defined.

(** An upstream that is always unavailable: five requests, four backoffs,
    then [APITimeoutError]. *)
Lemma retry_gives_up_after_five_timeouts_at_503 :
  get_match_history_and_retry_on_failure Upstream.unavailable PyNone (PyInt 7) [] []
    = (Exc APITimeoutError,
       [] ++ EvGet (history_url Upstream.unavailable (PyInt 7)
                      [("start_at_match_seq", PyNone)])
          :: more_attempts 4 (history_url Upstream.unavailable (PyInt 7)
                                [("start_at_match_seq", PyNone)])) /\
  List.length (requests_of (snd (get_match_details_and_retry_on_failure
                                   Upstream.unavailable (PyInt 42) [] []))) = 5%nat.
Proof.
  pose proof (retry_gives_up_after_five_timeouts Upstream.unavailable) as [Hhist Hdet].
  split.
  - apply (Hhist PyNone (PyInt 7) [] []). apply always_unavailable.
  - destruct (Hdet (PyInt 42) [] [] (always_unavailable _)) as [Hrun Hreq].
    rewrite Hrun. cbn [snd]. rewrite Hreq. reflexivity.
Defined.

(** An upstream that always rejects the key: five requests as well. *)
Lemma retry_repeats_authentication_failures_at_403 :
  get_match_history_and_retry_on_failure Upstream.forbidden PyNone (PyInt 7) [] []
    = (Exc (APIAuthenticationError (Some "KEY")),
       [] ++ EvGet (history_url Upstream.forbidden (PyInt 7)
                      [("start_at_match_seq", PyNone)])
          :: more_attempts 4 (history_url Upstream.forbidden (PyInt 7)
                                [("start_at_match_seq", PyNone)])) /\
  List.length (requests_of (snd (get_match_details_and_retry_on_failure
                                   Upstream.forbidden (PyInt 42) [] []))) = 5%nat.
Proof.
  pose proof (retry_repeats_authentication_failures Upstream.forbidden) as [Hhist Hdet].
  split.
  - apply (Hhist PyNone (PyInt 7) [] []). apply always_forbidden.
  - destruct (Hdet (PyInt 42) [] [] (always_forbidden _)) as [Hrun Hreq].
    rewrite Hrun. cbn [snd]. rewrite Hreq. reflexivity.
Defined.

(** C3 as stated fails: against an upstream that answers 403 the wrapped
    fetch raises [APIAuthenticationError], and the wrapper calls the
    executor five times, not once, before it lets the error out. *)
Lemma authentication_failure_is_attempted_five_times :
  is_auth_failure (fst (get_match_history Upstream.forbidden (PyInt 7)
                          [("start_at_match_seq", PyNone)] [])) /\
  is_auth_failure (fst (get_match_history_and_retry_on_failure
                          Upstream.forbidden PyNone (PyInt 7) [] [])) /\
  List.length (requests_of (snd (get_match_history_and_retry_on_failure
                                   Upstream.forbidden PyNone (PyInt 7) [] [])))
    = 5%nat /\
  5%nat <> 1%nat.
Proof.
  repeat split.
  - now exists (Some "KEY").
  - now exists (Some "KEY").
  - discriminate.
Qed.

(** C5 as stated fails: on a page that lists match 3 before match 5 the
    walk asks for the next page with cursor 4, which is neither the least
    match id minus 1 (that is 2) nor below the least match id (3). *)
Lemma cursor_is_not_the_minimum_minus_one :
  Upstream.history_requests
    (snd (get_all_match_history_in_batches 5
            (Upstream.client (Upstream.one_page Upstream.older_first))
            (PyInt 7) true ObjNone [] []))
    = [(None, Some 0); (None, Some 4)] /\
  min_match_id (matches Upstream.older_first) - 1 = 2 /\
  ~ 4 < min_match_id (matches Upstream.older_first).
Proof.
  repeat split. vm_compute. discriminate.
Qed.

(** A page that lists match 5 before match 3: the next cursor is 2, the
    least match id minus 1. *)
Lemma next_cursor_is_last_match_id_minus_one_at_newer_first :
  dict_get "start_at_match_id"
    (api_query (next_page_url (Upstream.client (Upstream.one_page Upstream.newer_first))
                  (PyInt 7) (3 - 1)))
    = Some (PyInt (3 - 1)) /\
  3 - 1 = min_match_id (matches Upstream.newer_first) - 1.
Proof.
  pose proof (next_cursor_is_last_match_id_minus_one
                (Upstream.client (Upstream.one_page Upstream.newer_first))
                (PyInt 7) true 0 2 Upstream.newer_first
                [ {| match_id := 5 |} ] {| match_id := 3 |}
                [] [ObjDetails {| md_match_id := 5 |}; ObjDetails {| md_match_id := 3 |}]
                []
                (snd (for_each_match
                        (Upstream.client (Upstream.one_page Upstream.newer_first))
                        (matches Upstream.newer_first) [] []))
                eq_refl eq_refl eq_refl) as (_ & _ & Hquery & Hmin).
  split; [exact Hquery|].
  apply Hmin. repeat constructor; cbn; lia.
Defined.

(** The last turn on that page: two details, a pause, one more page
    request, and the two details as the result. *)
Lemma walk_requests_one_page_past_the_last_at_newer_first :
  while_remaining 1 (Upstream.client (Upstream.one_page Upstream.newer_first))
    (PyInt 7) true 2 (ObjHistory Upstream.newer_first) [] []
  = (next_page (Upstream.client (Upstream.one_page Upstream.newer_first))
       (PyInt 7) (3 - 1) ;;;
     ret [ObjDetails {| md_match_id := 5 |}; ObjDetails {| md_match_id := 3 |}])
      (snd (for_each_match
              (Upstream.client (Upstream.one_page Upstream.newer_first))
              (matches Upstream.newer_first) [] []) ++ [EvSleep 1]).
Proof.
  apply (proj2 (walk_requests_one_page_past_the_last
                  (Upstream.client (Upstream.one_page Upstream.newer_first))
                  (PyInt 7) true)
           0%nat 2 Upstream.newer_first
           [ {| match_id := 5 |} ] {| match_id := 3 |} []  []);
    [ lia | cbn; lia | reflexivity | reflexivity ].
Defined.

(** An account of two matches: the first page is fetched and the walk stops
    at the unassigned [hist]. *)
Lemma under_cap_branch_raises_unbound_local_at_two_matches :
  get_all_matches_for_user 5
    (Upstream.client (Upstream.one_page Upstream.newer_first)) (PyInt 7) true []
  = (Exc (UnboundLocalError "hist"),
     snd (get_match_history_and_retry_on_failure
            (Upstream.client (Upstream.one_page Upstream.newer_first))
            PyNone (PyInt 7) [] [])).
Proof.
  apply (under_cap_branch_raises_unbound_local 5
           (Upstream.client (Upstream.one_page Upstream.newer_first))
           (PyInt 7) true [] _ Upstream.newer_first);
    [ reflexivity | cbn; lia ].
Defined.

(** A page with nothing remaining and no match on it. *)
Lemma empty_page_raises_index_error_at_empty_last_page :
  while_remaining 1 (Upstream.client (Upstream.one_page Upstream.empty_last_page))
    (PyInt 7) true 1 (ObjHistory Upstream.empty_last_page) [] []
  = (Exc IndexError, []).
Proof.
  apply empty_page_raises_index_error; [ lia | reflexivity ].
Defined.

(** The same input from the top of the walk: the first page reports one
    result, none remaining and no match; the walk ends in [IndexError]. *)
Example walk_on_empty_last_page :
  fst (get_all_match_history_in_batches 5
         (Upstream.client (Upstream.one_page Upstream.empty_last_page))
         (PyInt 7) true ObjNone [] [])
  = Exc IndexError.
Proof. reflexivity. Qed.

(** A key given as argument wins over the one of the environment. *)
Lemma init_fails_iff_no_key_at_explicit_key :
  exists self,
    init [("D2_API_KEY", "ENVKEY")] (Upstream.answers 200)
         (Some "ARGKEY") None None false = Ret self /\
    api_key self = "ARGKEY".
Proof.
  apply (proj1 (proj2 (init_fails_iff_no_key [("D2_API_KEY", "ENVKEY")]
                         (Upstream.answers 200) (Some "ARGKEY") None None false))
           "ARGKEY" eq_refl).
  discriminate.
Defined.

(** C8 as stated fails: an [api_key] argument that is supplied but empty
    does not count.  Without the environment variable construction fails
    although the argument was given; with it, the key of the environment is
    used, not the argument. *)
Lemma empty_api_key_is_not_used :
  init [] (Upstream.answers 200) (Some "") None None false
    = Exc (APIAuthenticationError None) /\
  match init [("D2_API_KEY", "ENVKEY")] (Upstream.answers 200)
             (Some "") None None false with
  | Ret self => api_key self = "ENVKEY" /\ api_key self <> ""
  | _ => False
  end.
Proof.
  split; [reflexivity|]. cbn. split; [reflexivity | discriminate].
Qed.

(** The 32-bit identifier 5. *)
Lemma convert_to_64_bit_cases_at_5 :
  convert_to_64_bit (convert_to_64_bit 5) = convert_to_64_bit 5 /\
  min64b <= convert_to_64_bit 5.
Proof.
  apply (proj2 (proj2 (proj2 convert_to_64_bit_cases)) 5). lia.
Defined.

(** ** Building the query *)

Lemma dict_get_set_same (k : string) (v : pyval) (d : kwargs) :
  dict_get k (dict_set k v d) = Some v.
Proof.
  induction d as [|[k' v'] d IH]; cbn [dict_set dict_get].
  - now rewrite String.eqb_refl.
  - destruct (String.eqb_spec k k') as [->|Hne]; cbn [dict_get].
    + now rewrite String.eqb_refl.
    + destruct (String.eqb_spec k k'); [contradiction | exact IH].
Qed.

Lemma dict_get_set_other (k k' : string) (v : pyval) (d : kwargs) :
  k <> k' -> dict_get k' (dict_set k v d) = dict_get k' d.
Proof.
  intros Hne.
  induction d as [|[k0 v0] d IH]; cbn [dict_set dict_get].
  - destruct (String.eqb_spec k' k); [congruence | reflexivity].
  - destruct (String.eqb_spec k k0) as [->|Hk]; cbn [dict_get].
    + destruct (String.eqb_spec k' k0); [congruence | reflexivity].
    + destruct (String.eqb_spec k' k0); [reflexivity | exact IH].
Qed.

Lemma dict_in_set_other (k k' : string) (v : pyval) (d : kwargs) :
  k <> k' -> dict_in k' (dict_set k v d) = dict_in k' d.
Proof.
  intros Hne. unfold dict_in. now rewrite dict_get_set_other.
Qed.

Lemma dict_keys_set (k : string) (v : pyval) (d : kwargs) :
  dict_keys (dict_set k v d) =
    if dict_in k d then dict_keys d else dict_keys d ++ [k].
Proof.
  unfold dict_keys, dict_in.
  induction d as [|[k' v'] d IH]; cbn [dict_set dict_get map fst app].
  - reflexivity.
  - destruct (String.eqb_spec k k') as [->|Hne]; cbn [map fst].
    + reflexivity.
    + rewrite IH. destruct (dict_get k d); reflexivity.
Qed.

(** What a default does to a dictionary: nothing when the key is there. *)
Lemma dict_get_default (k k' : string) (v : pyval) (d : kwargs) :
  dict_get k' (if dict_in k d then d else dict_set k v d) =
    if String.eqb k' k
    then Some (match dict_get k d with Some v' => v' | None => v end)
    else dict_get k' d.
Proof.
  unfold dict_in.
  destruct (String.eqb_spec k' k) as [->|Hne].
  - destruct (dict_get k d) eqn:Hk; [exact Hk | apply dict_get_set_same].
  - destruct (dict_get k d); [reflexivity|].
    apply dict_get_set_other. congruence.
Qed.

(** Looking a parameter up in the query [__build_url] makes. *)
Lemma build_url_get (self : Initialise) (call : ApiCall) (kw : kwargs) (k : string) :
  dict_get k (api_query (build_url self call kw)) =
    if String.eqb k "format"
    then Some (match dict_get "format" kw with
               | Some given => given
               | None => PyStr (format self)
               end)
    else if String.eqb k "language"
    then Some (match dict_get "language" kw with
               | Some given => given
               | None => PyStr (language self)
               end)
    else if String.eqb k "key" then Some (PyStr (api_key self))
    else dict_get k kw.
Proof.
  unfold build_url. cbn [api_query].
  rewrite dict_get_default.
  destruct (String.eqb_spec k "format") as [->|Hformat].
  - rewrite dict_get_default. cbn [String.eqb Ascii.eqb Bool.eqb].
    now rewrite dict_get_set_other by discriminate.
  - rewrite dict_get_default.
    destruct (String.eqb_spec k "language") as [->|Hlanguage].
    + now rewrite dict_get_set_other by discriminate.
    + destruct (String.eqb_spec k "key") as [->|Hkey].
      * apply dict_get_set_same.
      * apply dict_get_set_other. congruence.
Qed.

(** The query of every request: the key is the client's, whatever the
    caller passed as [key]; [language] and [format] are the caller's when
    given and the client's otherwise; every other parameter is the
    caller's, untouched. *)
Theorem build_url_parameters (self : Initialise) (call : ApiCall) (kw : kwargs) :
  let query := api_query (build_url self call kw) in
  api_call (build_url self call kw) = call /\
  dict_get "key" query = Some (PyStr (api_key self)) /\
  dict_get "language" query =
    Some (match dict_get "language" kw with
          | Some given => given
          | None => PyStr (language self)
          end) /\
  dict_get "format" query =
    Some (match dict_get "format" kw with
          | Some given => given
          | None => PyStr (format self)
          end) /\
  (forall k, k <> "key" -> k <> "language" -> k <> "format" ->
             dict_get k query = dict_get k kw).
Proof.
  cbn zeta. split; [reflexivity|].
  rewrite !build_url_get. cbn [String.eqb Ascii.eqb Bool.eqb].
  repeat split.
  intros k Hkey Hlang Hformat. rewrite build_url_get.
  destruct (String.eqb_spec k "format"); [contradiction|].
  destruct (String.eqb_spec k "language"); [contradiction|].
  destruct (String.eqb_spec k "key"); [contradiction | reflexivity].
Qed.

(** The caller's parameters stay where they are, in their order, and the
    ones the caller did not give follow them: [key], [language], [format]. *)
Theorem build_url_parameter_order (self : Initialise) (call : ApiCall) (kw : kwargs) :
  dict_keys (api_query (build_url self call kw)) =
    dict_keys kw
      ++ filter (fun k => negb (dict_in k kw)) ["key"; "language"; "format"].
Proof.
  unfold build_url. cbn [api_query filter].
  set (kw1 := dict_set "key" (PyStr (api_key self)) kw).
  assert (H1 : dict_keys kw1 =
               dict_keys kw ++ (if negb (dict_in "key" kw) then ["key"] else [])).
  { unfold kw1. rewrite dict_keys_set.
    destruct (dict_in "key" kw); cbn [negb]; [now rewrite app_nil_r | reflexivity]. }
  assert (L1 : dict_in "language" kw1 = dict_in "language" kw)
    by (apply dict_in_set_other; discriminate).
  set (kw2 := if dict_in "language" kw1 then kw1
              else dict_set "language" (PyStr (language self)) kw1).
  assert (H2 : dict_keys kw2 =
               dict_keys kw1
                 ++ (if negb (dict_in "language" kw) then ["language"] else [])).
  { unfold kw2. rewrite <- L1.
    destruct (dict_in "language" kw1) eqn:E; cbn [negb].
    - now rewrite app_nil_r.
    - rewrite dict_keys_set, E. reflexivity. }
  assert (F2 : dict_in "format" kw2 = dict_in "format" kw).
  { unfold kw2. destruct (dict_in "language" kw1).
    - apply dict_in_set_other. discriminate.
    - rewrite dict_in_set_other by discriminate.
      apply dict_in_set_other. discriminate. }
  assert (H3 : dict_keys (if dict_in "format" kw2 then kw2
                          else dict_set "format" (PyStr (format self)) kw2) =
               dict_keys kw2
                 ++ (if negb (dict_in "format" kw) then ["format"] else [])).
  { rewrite <- F2. destruct (dict_in "format" kw2) eqn:E; cbn [negb].
    - now rewrite app_nil_r.
    - rewrite dict_keys_set, E. reflexivity. }
  rewrite H3, H2, H1, <- !app_assoc. f_equal.
  destruct (dict_in "key" kw), (dict_in "language" kw), (dict_in "format" kw);
    reflexivity.
Qed.

(** A client that was constructed takes [en_us] for a language that is
    missing or empty, always asks for [json], and keeps the executor it was
    given, or the default one; every request that does not say otherwise
    carries that language and that format. *)
Theorem constructed_client_defaults (environ : list (string * string))
    (requests_get : Executor) (key : option string) (ex : option Executor)
    (lang : option string) (logging : bool) (self : Initialise) :
  init environ requests_get key ex lang logging = Ret self ->
  language self = match lang with
                  | Some l => if String.eqb l "" then "en_us" else l
                  | None => "en_us"
                  end /\
  format self = "json" /\
  executor self = match ex with Some e => e | None => requests_get end /\
  (forall call kw,
      dict_get "language" kw = None ->
      dict_get "format" kw = None ->
      dict_get "language" (api_query (build_url self call kw))
        = Some (PyStr (language self)) /\
      dict_get "format" (api_query (build_url self call kw))
        = Some (PyStr "json")).
Proof.
  intros Hinit.
  assert (Hfields :
            language self = match lang with
                            | Some l => if String.eqb l "" then "en_us" else l
                            | None => "en_us"
                            end /\
            format self = "json" /\
            executor self = match ex with Some e => e | None => requests_get end).
  { unfold init in Hinit.
    destruct (if truthy key then key else None);
      [| destruct (environ_get "D2_API_KEY" environ); [|discriminate]];
      injection Hinit as <-; cbn [language format executor];
      (repeat split; destruct lang as [l|]; cbn [truthy]; try reflexivity;
       destruct (String.eqb l ""); reflexivity). }
  destruct Hfields as (Hlang & Hformat & Hexec).
  repeat split; try assumption.
  - rewrite build_url_get. cbn [String.eqb Ascii.eqb Bool.eqb].
    now rewrite H.
  - rewrite build_url_get. cbn [String.eqb Ascii.eqb Bool.eqb].
    now rewrite H0, Hformat.
Qed.

(** ** One fetch, one request *)

Lemma get_match_details_world (self : Initialise) (mid : pyval) (kw : kwargs)
    (w : World) :
  snd (get_match_details self mid kw w) = w ++ [EvGet (details_url self mid kw)].
Proof.
  unfold get_match_details, bind, call_executor.
  fold (details_url self mid kw).
  destruct (executor self w (details_url self mid kw)) as [req| |];
    try reflexivity.
  rewrite check_http_err_cases. by_status (status_code req).
Qed.

Lemma get_heroes_world (self : Initialise) (w : World) :
  snd (get_heroes self w) = w ++ [EvGet (build_url self GET_HEROES [])].
Proof.
  unfold get_heroes, bind, call_executor.
  destruct (executor self w (build_url self GET_HEROES [])) as [req| |];
    try reflexivity.
  rewrite check_http_err_cases. by_status (status_code req).
Qed.

(** Each fetch operation calls the executor exactly once, whatever comes
    back, and an exception of the executor itself comes out of the fetch
    unchanged: the status code is not looked at and nothing is parsed. *)
Theorem fetch_calls_executor_once (self : Initialise) (w : World) :
  (forall account_id kw,
      snd (get_match_history self account_id kw w)
        = w ++ [EvGet (history_url self account_id kw)] /\
      forall e, executor self w (history_url self account_id kw) = Exc e ->
                fst (get_match_history self account_id kw w) = Exc e) /\
  (forall mid kw,
      snd (get_match_details self mid kw w)
        = w ++ [EvGet (details_url self mid kw)] /\
      forall e, executor self w (details_url self mid kw) = Exc e ->
                fst (get_match_details self mid kw w) = Exc e) /\
  (snd (get_heroes self w) = w ++ [EvGet (build_url self GET_HEROES [])] /\
   forall e, executor self w (build_url self GET_HEROES []) = Exc e ->
             fst (get_heroes self w) = Exc e).
Proof.
  repeat split.
  - apply get_match_history_world.
  - intros e He. unfold get_match_history, bind, call_executor.
    fold (history_url self account_id kw). now rewrite He.
  - apply get_match_details_world.
  - intros e He. unfold get_match_details, bind, call_executor.
    fold (details_url self mid kw). now rewrite He.
  - apply get_heroes_world.
  - intros e He. unfold get_heroes, bind, call_executor. now rewrite He.
Qed.

(** ** The retry wrappers against any upstream *)

(** A function that logs one request per call is called between one and
    [left + 1] times, with a backoff between two calls, and an exception
    only comes out of the last call allowed. *)
Lemma retrying_call_log {A} (fn : M A) (url : Url) :
  (forall w, snd (fn w) = w ++ [EvGet url]) ->
  forall left w, exists retries,
    (retries <= left)%nat /\
    snd (retrying_call left fn w) = w ++ EvGet url :: more_attempts retries url /\
    (forall e, fst (retrying_call left fn w) = Exc e -> retries = left).
Proof.
  intros Hfn left.
  induction left as [|left IH]; intros w; cbn [retrying_call];
    specialize (Hfn w); destruct (fn w) as [[a|e|] w1] eqn:Hrun;
    cbn [snd] in Hfn; subst w1;
    try (exists 0%nat; cbn [fst snd more_attempts];
         split; [lia | split; [reflexivity | try discriminate; reflexivity]]).
  destruct (IH ((w ++ [EvGet url]) ++ [EvBackoff])) as (retries & Hle & Hlog & Hexc).
  exists (S retries). split; [lia|]. split.
  - rewrite Hlog. cbn [more_attempts]. rewrite <- !app_assoc. reflexivity.
  - intros e' He'. f_equal. now apply Hexc with (e := e').
Qed.

(** One call of a retry wrapper sends between one and five requests, all
    of them the same, with a backoff between two of them and no other
    event; when an exception comes out, all five were sent. *)
Theorem retry_sends_one_to_five_requests (self : Initialise) (w : World) :
  (forall seq account_id kw,
      let url := history_url self account_id (("start_at_match_seq", seq) :: kw) in
      exists retries,
        (retries <= 4)%nat /\
        snd (get_match_history_and_retry_on_failure self seq account_id kw w)
          = w ++ EvGet url :: more_attempts retries url /\
        (forall e,
            fst (get_match_history_and_retry_on_failure self seq account_id kw w)
              = Exc e -> retries = 4%nat)) /\
  (forall mid kw,
      let url := details_url self mid kw in
      exists retries,
        (retries <= 4)%nat /\
        snd (get_match_details_and_retry_on_failure self mid kw w)
          = w ++ EvGet url :: more_attempts retries url /\
        (forall e,
            fst (get_match_details_and_retry_on_failure self mid kw w)
              = Exc e -> retries = 4%nat)).
Proof.
  split.
  - intros seq account_id kw url.
    unfold get_match_history_and_retry_on_failure, retry.
    apply retrying_call_log. intros w0. apply get_match_history_world.
  - intros mid kw url.
    unfold get_match_details_and_retry_on_failure, retry.
    apply retrying_call_log. intros w0. apply get_match_details_world.
Qed.

Lemma retrying_call_recovers {A} (fn : M A) (url : Url) (a : A) :
  forall (j left : nat) (w : World),
    (j <= left)%nat ->
    (forall i, (i < j)%nat ->
               exists e, fn (w ++ failed_attempts i url)
                         = (Exc e, (w ++ failed_attempts i url) ++ [EvGet url])) ->
    fn (w ++ failed_attempts j url)
      = (Ret a, (w ++ failed_attempts j url) ++ [EvGet url]) ->
    retrying_call left fn w = (Ret a, w ++ failed_attempts j url ++ [EvGet url]).
Proof.
  induction j as [|j IH]; intros left w Hle Hfail Hok.
  - cbn [failed_attempts] in *. rewrite app_nil_r in Hok.
    now apply retrying_call_returns.
  - destruct left as [|left]; [lia|].
    destruct (Hfail 0%nat ltac:(lia)) as [e He].
    cbn [failed_attempts] in He. rewrite app_nil_r in He.
    cbn [retrying_call]. rewrite He.
    rewrite (IH left ((w ++ [EvGet url]) ++ [EvBackoff])).
    + cbn [failed_attempts]. rewrite <- !app_assoc. reflexivity.
    + lia.
    + intros i Hi. destruct (Hfail (S i) ltac:(lia)) as [e' He'].
      exists e'. cbn [failed_attempts] in He'.
      rewrite <- !app_assoc in *. exact He'.
    + cbn [failed_attempts] in Hok. rewrite <- !app_assoc in *. exact Hok.
Qed.

Lemma get_match_history_fails (self : Initialise) (account_id : pyval)
    (kw : kwargs) (w : World) :
  attempt_fails self w (history_url self account_id kw) ->
  exists e, get_match_history self account_id kw w
            = (Exc e, w ++ [EvGet (history_url self account_id kw)]).
Proof.
  unfold attempt_fails. intros Hfail.
  destruct (executor self w (history_url self account_id kw)) as [req|e|] eqn:Hex;
    [| | contradiction].
  - rewrite (get_match_history_run self account_id kw w req Hex).
    destruct Hfail as [-> | ->]; eexists; reflexivity.
  - exists e. unfold get_match_history, bind, call_executor.
    fold (history_url self account_id kw). now rewrite Hex.
Qed.

Lemma get_match_details_fails (self : Initialise) (mid : pyval)
    (kw : kwargs) (w : World) :
  attempt_fails self w (details_url self mid kw) ->
  exists e, get_match_details self mid kw w
            = (Exc e, w ++ [EvGet (details_url self mid kw)]).
Proof.
  unfold attempt_fails. intros Hfail.
  destruct (executor self w (details_url self mid kw)) as [req|e|] eqn:Hex;
    [| | contradiction].
  - rewrite (get_match_details_run self mid kw w req Hex).
    destruct Hfail as [-> | ->]; eexists; reflexivity.
  - exists e. unfold get_match_details, bind, call_executor.
    fold (details_url self mid kw). now rewrite Hex.
Qed.

Lemma status_passes (self : Initialise) (status : Z) (body : pyobj) :
  status <> 403 -> status <> 503 ->
  (if status =? 403 then Exc (APIAuthenticationError (Some (api_key self)))
   else if status =? 503 then Exc APITimeoutError
   else Ret body) = Ret body.
Proof.
  intros H3 H5.
  destruct (Z.eqb_spec status 403); [contradiction|].
  destruct (Z.eqb_spec status 503); [contradiction | reflexivity].
Qed.

(** Failures are absorbed: when up to four attempts in a row fail (the
    executor raises, or answers 403 or 503) and the next one is answered
    with another status, the wrapper returns the parsed body of that answer;
    the log shows the failed attempts, each followed by a backoff, and the
    request that succeeded. *)
Theorem retry_returns_first_success (self : Initialise) (w : World) (j : nat)
    (req : Response) :
  (j <= 4)%nat ->
  status_code req <> 403 ->
  status_code req <> 503 ->
  (forall seq account_id kw,
      let url := history_url self account_id (("start_at_match_seq", seq) :: kw) in
      (forall i, (i < j)%nat -> attempt_fails self (w ++ failed_attempts i url) url) ->
      executor self (w ++ failed_attempts j url) url = Ret req ->
      get_match_history_and_retry_on_failure self seq account_id kw w
        = (Ret (build req url), w ++ failed_attempts j url ++ [EvGet url])) /\
  (forall mid kw,
      let url := details_url self mid kw in
      (forall i, (i < j)%nat -> attempt_fails self (w ++ failed_attempts i url) url) ->
      executor self (w ++ failed_attempts j url) url = Ret req ->
      get_match_details_and_retry_on_failure self mid kw w
        = (Ret (build req url), w ++ failed_attempts j url ++ [EvGet url])).
Proof.
  intros Hj H3 H5. split.
  - intros seq account_id kw url Hfail Hok.
    unfold get_match_history_and_retry_on_failure, retry.
    apply retrying_call_recovers; [cbn; lia | |].
    + intros i Hi. apply get_match_history_fails. now apply Hfail.
    + rewrite (get_match_history_run self _ _ _ req Hok).
      now rewrite status_passes.
  - intros mid kw url Hfail Hok.
    unfold get_match_details_and_retry_on_failure, retry.
    apply retrying_call_recovers; [cbn; lia | |].
    + intros i Hi. apply get_match_details_fails. now apply Hfail.
    + rewrite (get_match_details_run self _ _ _ req Hok).
      now rewrite status_passes.
Qed.

(** ** The details of a page *)

Lemma for_each_match_app (self : Initialise) (batch1 batch2 : list MatchSummary) :
  forall (acc : list pyobj) (w : World),
    for_each_match self (batch1 ++ batch2) acc w =
      (acc' <- for_each_match self batch1 acc ;;
       for_each_match self batch2 acc') w.
Proof.
  induction batch1 as [|m batch1 IH]; intros acc w; [reflexivity|].
  cbn [app for_each_match]. unfold bind, sleep.
  destruct (get_match_details_and_retry_on_failure self
              (PyInt (match_id m)) [] (w ++ [EvSleep 1])) as [[d|e|] w1];
    try reflexivity.
  rewrite IH. reflexivity.
Qed.

(** A page whose details all come back adds exactly one entry per match to
    the result, in the order of the page, after what was there: the entry
    of a match is what the details wrapper returned for that match id,
    asked after a pause of one second and with no other parameter. *)
Theorem for_each_match_appends_details (self : Initialise)
    (batch : list MatchSummary) :
  forall (acc result : list pyobj) (w w' : World),
    for_each_match self batch acc w = (Ret result, w') ->
    exists details,
      result = acc ++ details /\
      Forall2 (details_fetched self) batch details.
Proof.
  induction batch as [|m batch IH]; intros acc result w w' Hrun.
  - injection Hrun as <- <-. exists []. split; [now rewrite app_nil_r | constructor].
  - cbn [for_each_match] in Hrun.
    apply bind_returns in Hrun as ([] & w1 & Hsleep & Hrun).
    injection Hsleep as <-.
    apply bind_returns in Hrun as (d & w2 & Hd & Hrun).
    destruct (IH _ _ _ _ Hrun) as (details & -> & Hall).
    exists (d :: details). split.
    + rewrite <- app_assoc. reflexivity.
    + constructor; [|assumption]. now exists w, w2.
Qed.

(** The first match whose details cannot be had ends the page: the
    exception of the wrapper comes out, the details gathered before are
    lost with it, and no later match of the page is asked for. *)
Theorem for_each_match_stops_at_first_failure (self : Initialise)
    (done rest : list MatchSummary) (m : MatchSummary)
    (acc acc1 : list pyobj) (w w1 w2 : World) (e : exn) :
  for_each_match self done acc w = (Ret acc1, w1) ->
  get_match_details_and_retry_on_failure self (PyInt (match_id m)) []
    (w1 ++ [EvSleep 1]) = (Exc e, w2) ->
  for_each_match self (done ++ m :: rest) acc w = (Exc e, w2).
Proof.
  intros Hdone Hfail.
  rewrite for_each_match_app, (bind_run _ _ _ _ _ Hdone).
  cbn [for_each_match]. unfold bind, sleep.
  now rewrite Hfail.
Qed.

(** ** Pauses *)

Lemma paced_app (ready : bool) (l1 l2 : World) :
  paced ready (l1 ++ l2) = paced ready l1 && paced (ready_after ready l1) l2.
Proof.
  revert ready. induction l1 as [|ev l1 IH]; intros ready; [reflexivity|].
  destruct ev; cbn [app paced ready_after]; rewrite IH;
    [now rewrite andb_assoc | reflexivity | reflexivity].
Qed.

Lemma paced_more_attempts (n : nat) (url : Url) (ready : bool) :
  paced ready (more_attempts n url) = true.
Proof.
  revert ready. induction n as [|n IH]; intros ready; [reflexivity|].
  cbn [more_attempts paced andb]. apply IH.
Qed.

Lemma extends_log_pure {A} (c : M A) :
  (forall w, snd (c w) = w) -> extends_log c paced_anywhere.
Proof.
  intros Hc w. exists []. rewrite app_nil_r. split; [apply Hc | now intros ready].
Qed.

Lemma extends_log_bind {A B} (c : M A) (k : A -> M B) :
  extends_log c paced_anywhere ->
  (forall a, extends_log (k a) paced_anywhere) ->
  extends_log (bind c k) paced_anywhere.
Proof.
  intros Hc Hk w. destruct (Hc w) as (new1 & Hw1 & Hp1).
  unfold bind. destruct (c w) as [[a|e|] w1]; cbn [snd] in *; subst w1;
    try (now exists new1).
  destruct (Hk a (w ++ new1)) as (new2 & Hw2 & Hp2).
  exists (new1 ++ new2). rewrite Hw2, app_assoc. split; [reflexivity|].
  intros ready. now rewrite paced_app, Hp1, Hp2.
Qed.

Lemma extends_log_bind_after_pause {A B} (c : M A) (k : A -> M B) :
  extends_log c paced_after_pause ->
  (forall a, extends_log (k a) paced_anywhere) ->
  extends_log (bind c k) paced_after_pause.
Proof.
  intros Hc Hk w. destruct (Hc w) as (new1 & Hw1 & Hp1).
  unfold bind. destruct (c w) as [[a|e|] w1]; cbn [snd] in *; subst w1;
    try (now exists new1).
  destruct (Hk a (w ++ new1)) as (new2 & Hw2 & Hp2).
  exists (new1 ++ new2). rewrite Hw2, app_assoc. split; [reflexivity|].
  unfold paced_after_pause in *. now rewrite paced_app, Hp1, Hp2.
Qed.

Lemma extends_log_sleep_then {A} (c : M A) :
  extends_log c paced_after_pause ->
  extends_log (sleep 1 ;;; c) paced_anywhere.
Proof.
  intros Hc w. unfold bind, sleep.
  destruct (Hc (w ++ [EvSleep 1])) as (new & Hw & Hp).
  exists (EvSleep 1 :: new). rewrite Hw, <- app_assoc. split; [reflexivity|].
  intros ready. exact Hp.
Qed.

Lemma details_wrapper_paced (self : Initialise) (mid : pyval) (kw : kwargs) :
  extends_log (get_match_details_and_retry_on_failure self mid kw)
              paced_after_pause.
Proof.
  intros w. unfold get_match_details_and_retry_on_failure, retry.
  destruct (retrying_call_log (get_match_details self mid kw)
              (details_url self mid kw)
              (get_match_details_world self mid kw) (5 - 1) w)
    as (retries & _ & Hlog & _).
  eexists. split; [exact Hlog|].
  unfold paced_after_pause. cbn [paced andb]. apply paced_more_attempts.
Qed.

Lemma history_wrapper_paced (self : Initialise) (seq account_id : pyval)
    (kw : kwargs) :
  extends_log (get_match_history_and_retry_on_failure self seq account_id kw)
              paced_after_pause.
Proof.
  intros w. unfold get_match_history_and_retry_on_failure, retry.
  destruct (retrying_call_log
              (get_match_history self account_id (("start_at_match_seq", seq) :: kw))
              (history_url self account_id (("start_at_match_seq", seq) :: kw))
              (get_match_history_world self account_id _) (5 - 1) w)
    as (retries & _ & Hlog & _).
  eexists. split; [exact Hlog|].
  unfold paced_after_pause. cbn [paced andb]. apply paced_more_attempts.
Qed.

Lemma for_each_match_paced (self : Initialise) (batch : list MatchSummary) :
  forall acc, extends_log (for_each_match self batch acc) paced_anywhere.
Proof.
  induction batch as [|m batch IH]; intros acc; cbn [for_each_match].
  - now apply extends_log_pure.
  - apply extends_log_sleep_then.
    apply extends_log_bind_after_pause; [apply details_wrapper_paced|].
    intros d. apply IH.
Qed.

Lemma item_int_pure (field : HistoryPage -> Z) (key : string) (hist : pyobj)
    (w : World) :
  snd (item_int field key hist w) = w.
Proof. destruct hist; reflexivity. Qed.

Lemma item_matches_pure (hist : pyobj) (w : World) :
  snd (item_matches hist w) = w.
Proof. destruct hist; reflexivity. Qed.

Lemma next_start_index_pure (hist : pyobj) (w : World) :
  snd (next_start_index hist w) = w.
Proof.
  unfold next_start_index, bind. destruct hist as [|h|d|hs]; try reflexivity.
  cbn [item_matches ret]. unfold item_last.
  destruct (rev (matches h)); reflexivity.
Qed.

Lemma while_remaining_paced (fuel : nat) (self : Initialise)
    (account_id : pyval) (silently : bool) :
  forall remaining hist acc,
    extends_log (while_remaining fuel self account_id silently
                   remaining hist acc) paced_anywhere.
Proof.
  induction fuel as [|fuel IH]; intros remaining hist acc;
    cbn [while_remaining]; destruct (remaining >? 0);
    try (now apply extends_log_pure).
  apply extends_log_bind; [apply extends_log_pure, item_int_pure|].
  intros remaining'.
  apply extends_log_bind; [apply extends_log_pure, item_matches_pure|].
  intros batch.
  apply extends_log_bind.
  { destruct silently; apply extends_log_pure;
      [reflexivity | apply item_int_pure]. }
  intros _.
  apply extends_log_bind; [apply for_each_match_paced|].
  intros acc'.
  apply extends_log_bind; [apply extends_log_pure, next_start_index_pure|].
  intros cursor.
  apply extends_log_sleep_then.
  apply extends_log_bind_after_pause; [apply history_wrapper_paced|].
  intros hist'. apply IH.
Qed.

(** Inside the walk every request comes right after a pause: a sleep of one
    second before the first attempt at a match's details or at the next
    page, a backoff before every further attempt.  This holds for every
    outcome of the walk, an exception included. *)
Theorem walk_pauses_before_every_request (fuel : nat) (self : Initialise)
    (account_id : pyval) (silently : bool) :
  forall (remaining : Z) (hist : pyobj) (acc : list pyobj) (w : World),
    exists new,
      snd (while_remaining fuel self account_id silently remaining hist acc w)
        = w ++ new /\
      paced false new = true.
Proof.
  intros remaining hist acc w.
  destruct (while_remaining_paced fuel self account_id silently
              remaining hist acc w) as (new & Hlog & Hpaced).
  exists new. split; [exact Hlog | apply Hpaced].
Qed.

(** ** The walk and the aggregation as wholes *)


Lemma for_each_hero_concat (fuel : nat) (self : Initialise) (account_id : pyval)
    (silently : bool) (heroes : list Hero) :
  forall (acc result : list pyobj) (w w' : World),
    for_each_hero fuel self account_id silently heroes acc w = (Ret result, w') ->
    exists walks,
      result = acc ++ List.concat walks /\
      Forall2 (hero_walked fuel self account_id silently) heroes walks.
Proof.
  induction heroes as [|hero heroes IH]; intros acc result w w' Hrun.
  - injection Hrun as <- <-. exists []. split; [now rewrite app_nil_r | constructor].
  - cbn [for_each_hero] in Hrun.
    apply bind_returns in Hrun as (hero_matches & w1 & Hwalk & Hrun).
    destruct (IH _ _ _ _ Hrun) as (walks & -> & Hall).
    exists (hero_matches :: walks). split.
    + cbn [List.concat]. now rewrite app_assoc.
    + constructor; [|assumption]. now exists w, w1.
Qed.

(** Whenever the aggregation returns, the first page reported 500 results
    or more, the list of heroes was fetched right after it, and the result
    is the results of the heroes' walks one after the other, in the order of
    that list; the matches of the first page are not used. *)
Theorem aggregation_returns_hero_walks (fuel : nat) (self : Initialise)
    (account_id : pyval) (silently : bool) (w w' : World) (result : list pyobj) :
  get_all_matches_for_user fuel self account_id silently w = (Ret result, w') ->
  exists (h : HistoryPage) (w1 : World) (heroes : list Hero)
         (walks : list (list pyobj)),
    get_match_history_and_retry_on_failure self PyNone account_id [] w
      = (Ret (ObjHistory h), w1) /\
    500 <= total_results h /\
    get_heroes self w1
      = (Ret (ObjHeroes heroes), w1 ++ [EvGet (build_url self GET_HEROES [])]) /\
    result = List.concat walks /\
    Forall2 (hero_walked fuel self account_id silently) heroes walks.
Proof.
  intros Hrun. unfold get_all_matches_for_user in Hrun.
  apply bind_returns in Hrun as (hist & w1 & Hfirst & Hrun).
  apply bind_returns in Hrun as (total & w2 & Htotal & Hrun).
  destruct hist as [|h|d|hs]; try discriminate.
  injection Htotal as <- <-.
  destruct (Z.ltb_spec (total_results h) 500) as [Hunder|Hover].
  { unfold get_all_match_history_in_batches, bind in Hrun. discriminate. }
  apply bind_returns in Hrun as (heroes & w3 & Hheroes & Hrun).
  apply bind_returns in Hrun as (hs & w4 & Hitem & Hrun).
  destruct heroes as [|?|?|heroes]; try discriminate.
  injection Hitem as <- <-.
  apply bind_returns in Hrun as ([] & w5 & Hsleep & Hrun).
  apply for_each_hero_concat in Hrun as (walks & -> & Hall).
  pose proof (get_heroes_world self w1) as Hlog.
  rewrite Hheroes in Hlog. cbn [snd] in Hlog. subst w3.
  exists h, w1, heroes, walks. repeat split; assumption.
Qed.

Lemma extends_log_then {A B} (c : M A) (k : A -> M B) (P1 P2 : World -> Prop) :
  extends_log c P1 ->
  (forall a, extends_log (k a) P2) ->
  extends_log (bind c k) (fun _ => True).
Proof.
  intros Hc Hk w. destruct (Hc w) as (new1 & Hw1 & _).
  unfold bind. destruct (c w) as [[a|e|] w1]; cbn [snd] in *; subst w1;
    try (now exists new1).
  destruct (Hk a (w ++ new1)) as (new2 & Hw2 & _).
  exists (new1 ++ new2). now rewrite Hw2, app_assoc.
Qed.

Lemma extends_log_true {A} (c : M A) (P : World -> Prop) :
  extends_log c P -> extends_log c (fun _ => True).
Proof.
  intros Hc w. destruct (Hc w) as (new & Hlog & _). now exists new.
Qed.

Lemma batches_extend_log (fuel : nat) (self : Initialise) (account_id : pyval)
    (silently : bool) (initial_hist : pyobj) (kw : kwargs) :
  extends_log (get_all_match_history_in_batches fuel self account_id silently
                 initial_hist kw) (fun _ => True).
Proof.
  unfold get_all_match_history_in_batches.
  eapply extends_log_then.
  - destruct initial_hist;
      try (apply extends_log_true with (P := paced_anywhere);
           now apply (extends_log_pure (ret None))).
    eapply extends_log_then; [apply history_wrapper_paced|].
    intros h. now apply (extends_log_pure (ret (Some h))).
  - intros hist. eapply extends_log_then.
    + apply extends_log_pure. intros w. destruct hist; reflexivity.
    + intros hist'. eapply extends_log_then.
      * apply extends_log_pure. apply item_int_pure.
      * intros remaining. apply while_remaining_paced.
Qed.

Lemma for_each_hero_extends_log (fuel : nat) (self : Initialise)
    (account_id : pyval) (silently : bool) (heroes : list Hero) :
  forall acc,
    extends_log (for_each_hero fuel self account_id silently heroes acc)
                (fun _ => True).
Proof.
  induction heroes as [|hero heroes IH]; intros acc; cbn [for_each_hero].
  - intros w. exists []. now rewrite app_nil_r.
  - eapply extends_log_then; [apply batches_extend_log|].
    intros hero_matches. apply IH.
Qed.

(** When the first page reports 500 results or more, the list of heroes is
    requested right after the request for that page, with no pause between
    the two; the request is made once, outside the retry wrappers, and an
    exception it ends in ends the aggregation with that one request. *)
Theorem heroes_are_requested_once_without_pause (fuel : nat) (self : Initialise)
    (account_id : pyval) (silently : bool) (w w1 : World) (h : HistoryPage) :
  get_match_history_and_retry_on_failure self PyNone account_id [] w
    = (Ret (ObjHistory h), w1) ->
  500 <= total_results h ->
  (exists before rest,
      snd (get_all_matches_for_user fuel self account_id silently w)
        = before
            ++ [EvGet (history_url self account_id [("start_at_match_seq", PyNone)]);
                EvGet (build_url self GET_HEROES [])]
            ++ rest) /\
  (forall e, fst (get_heroes self w1) = Exc e ->
             get_all_matches_for_user fuel self account_id silently w
               = (Exc e, w1 ++ [EvGet (build_url self GET_HEROES [])])).
Proof.
  intros Hfirst Hover.
  assert (Hrun : get_all_matches_for_user fuel self account_id silently w =
                 (heroes <- get_heroes self ;;
                  hs <- item_heroes heroes ;;
                  sleep 1 ;;;
                  for_each_hero fuel self account_id silently hs []) w1).
  { unfold get_all_matches_for_user.
    rewrite (bind_run _ _ _ _ _ Hfirst).
    unfold bind at 1. cbn [item_int ret].
    destruct (Z.ltb_spec (total_results h) 500); [lia | reflexivity]. }
  pose proof (get_heroes_world self w1) as Hlog.
  split.
  - destruct (retrying_call_ends_with_request
                (get_match_history self account_id [("start_at_match_seq", PyNone)])
                (history_url self account_id [("start_at_match_seq", PyNone)])
                (get_match_history_world self account_id _) (5 - 1) w)
      as [before Hbefore].
    unfold get_match_history_and_retry_on_failure, retry in Hfirst.
    rewrite Hfirst in Hbefore. cbn [snd] in Hbefore.
    exists before. rewrite Hrun. unfold bind at 1.
    destruct (get_heroes self w1) as [[heroes|e|] w2]; cbn [snd] in *; subst w2 w1;
      try (exists []; cbn [snd]; now rewrite <- app_assoc).
    assert (Hrest : extends_log
                      (hs <- item_heroes heroes ;;
                       sleep 1 ;;;
                       for_each_hero fuel self account_id silently hs [])
                      (fun _ => True)).
    { eapply extends_log_then.
      - apply extends_log_pure. intros w0. destruct heroes; reflexivity.
      - intros hs. apply extends_log_then with (P1 := fun _ => True)
                                               (P2 := fun _ => True).
        + intros w0. exists [EvSleep 1]. split; [reflexivity | exact I].
        + intros _. apply for_each_hero_extends_log. }
    destruct (Hrest ((before ++ [EvGet (history_url self account_id
                                           [("start_at_match_seq", PyNone)])])
                       ++ [EvGet (build_url self GET_HEROES [])]))
      as (rest & Hlogrest & _).
    exists rest. rewrite Hlogrest, <- !app_assoc. reflexivity.
  - intros e He. rewrite Hrun. unfold bind at 1.
    destruct (get_heroes self w1) as [[heroes|e'|] w2]; cbn [fst snd] in *;
      try discriminate.
    injection He as ->. now subst w2.
Qed.

(** ** The walk against a stable upstream *)

Section StableUpstream.

Variable db : list (Z * Z).
Variable heroes : list Hero.
Variable page_size : nat.
Variable account_id : pyval.
Variable silently : bool.

Let self : Initialise := Upstream.client (Upstream.stable db heroes page_size).

Lemma stable_details (mid : Z) (w : World) :
  get_match_details_and_retry_on_failure self (PyInt mid) [] w
    = (Ret (ObjDetails {| md_match_id := mid |}),
       w ++ [EvGet (details_url self (PyInt mid) [])]).
Proof.
  unfold get_match_details_and_retry_on_failure, retry.
  apply retrying_call_returns.
  rewrite (get_match_details_run self (PyInt mid) [] w
             {| status_code := 200;
                json := ObjDetails {| md_match_id := mid |} |} eq_refl).
  reflexivity.
Qed.

Lemma stable_for_each_match (l : list (Z * Z)) :
  forall (acc : list pyobj) (w : World),
    exists w',
      for_each_match self (map (fun m => {| match_id := fst m |}) l) acc w
        = (Ret (acc ++ map detail_of_match l), w').
Proof.
  induction l as [|m l IH]; intros acc w; cbn [map for_each_match].
  - exists w. now rewrite app_nil_r.
  - unfold bind, sleep. cbn [match_id]. rewrite stable_details.
    destruct (IH (acc ++ [ObjDetails {| md_match_id := fst m |}])
                 ((w ++ [EvSleep 1])
                    ++ [EvGet (details_url self (PyInt (fst m)) [])]))
      as [w' Hrun].
    exists w'. fold (for_each_match self). rewrite Hrun.
    now rewrite <- app_assoc.
Qed.

Lemma stable_next_page (cursor : Z) (w : World) :
  next_page self account_id cursor w
    = (Ret (ObjHistory
              (page_of page_size
                 (if cursor =? 0 then db
                  else filter (fun m => fst m <=? cursor) db))),
       w ++ [EvGet (next_page_url self account_id cursor)]).
Proof.
  unfold next_page, get_match_history_and_retry_on_failure, retry.
  apply retrying_call_returns.
  rewrite (get_match_history_run self account_id
             [("start_at_match_seq", PyNone); ("start_at_match_id", PyInt cursor)] w
             {| status_code := 200;
                json := ObjHistory
                          (page_of page_size
                             (if cursor =? 0 then db
                              else filter (fun m => fst m <=? cursor) db)) |}).
  - reflexivity.
  - reflexivity.
Qed.

Lemma filter_none {A} (f : A -> bool) (l : list A) :
  Forall (fun x => f x = false) l -> filter f l = [].
Proof.
  induction 1 as [|x l Hx _ IH]; cbn [filter]; [reflexivity | now rewrite Hx].
Qed.

Lemma filter_all {A} (f : A -> bool) (l : list A) :
  Forall (fun x => f x = true) l -> filter f l = l.
Proof.
  induction 1 as [|x l Hx _ IH]; cbn [filter]; [reflexivity | now rewrite Hx, IH].
Qed.

Lemma newest_first_around (a b : list (Z * Z)) (x : Z * Z) :
  newest_first (a ++ x :: b) ->
  Forall (fun m => fst x < fst m) a /\ Forall (fun m => fst m < fst x) b.
Proof.
  induction a as [|m a IH]; cbn [app newest_first].
  - intros [Hb _]. split; [constructor | exact Hb].
  - intros [Hm Hrest]. destruct (IH Hrest) as [Ha Hb].
    split; [|exact Hb]. constructor; [|exact Ha].
    rewrite Forall_forall in Hm. apply Hm. apply in_elt.
Qed.

(** Asking for what is not newer than [x]'s id minus 1 selects what the
    list holds after [x]. *)
Lemma filter_older (a b : list (Z * Z)) (x : Z * Z) :
  newest_first (a ++ x :: b) ->
  filter (fun m => fst m <=? fst x - 1) (a ++ x :: b) = b.
Proof.
  intros Hsorted. destruct (newest_first_around a b x Hsorted) as [Ha Hb].
  rewrite filter_app. cbn [filter].
  rewrite (filter_none _ a), (filter_all _ b).
  - replace (fst x <=? fst x - 1) with false by (symmetry; apply Z.leb_gt; lia).
    reflexivity.
  - eapply Forall_impl; [|exact Hb]. cbv beta. intros m Hm. apply Z.leb_le. lia.
  - eapply Forall_impl; [|exact Ha]. cbv beta. intros m Hm. apply Z.leb_gt. lia.
Qed.

Hypothesis page_size_positive : (0 < page_size)%nat.
Hypothesis db_newest_first : newest_first db.
Hypothesis db_ids_positive : Forall (fun m => 0 < fst m) db.

(** The loop on the page of [l], the matches still to come. *)
Lemma stable_loop (fuel : nat) :
  forall (pre l : list (Z * Z)) (acc : list pyobj) (w : World),
    db = pre ++ l ->
    (List.length l <= fuel)%nat ->
    exists w',
      while_remaining fuel self account_id silently
        (Z.of_nat (List.length l)) (ObjHistory (page_of page_size l)) acc w
      = (Ret (acc ++ map detail_of_match l), w').
Proof.
  induction fuel as [|fuel IH]; intros pre l acc w Hdb Hfuel.
  { destruct l; [|cbn in Hfuel; lia].
    exists w. rewrite while_remaining_done by (cbn; lia).
    now rewrite app_nil_r. }
  destruct l as [|m0 l0].
  { exists w. rewrite while_remaining_done by (cbn; lia).
    now rewrite app_nil_r. }
  set (l := m0 :: l0) in *.
  assert (Hbatch : firstn page_size l <> []).
  { destruct page_size; [lia | discriminate]. }
  destruct (exists_last Hbatch) as (front & x & Hlast).
  rewrite while_remaining_turn by (unfold l; cbn [List.length]; lia).
  destruct (stable_for_each_match (firstn page_size l) acc w) as [wd Hd].
  cbn [matches page_of].
  rewrite (bind_run _ _ _ _ _ Hd).
  rewrite (bind_run _ _ _ _ _
             (next_start_index_last (page_of page_size l)
                (map (fun m => {| match_id := fst m |}) front)
                {| match_id := fst x |} wd
                ltac:(cbn [matches page_of]; now rewrite Hlast, map_app))).
  rewrite (bind_run (sleep 1) _ wd (wd ++ [EvSleep 1]) tt eq_refl).
  cbn [match_id].
  rewrite (bind_run _ _ _ _ _ (stable_next_page (fst x - 1) (wd ++ [EvSleep 1]))).
  cbn [results_remaining page_of].
  assert (Hsplit : l = firstn page_size l ++ skipn page_size l)
    by (symmetry; apply firstn_skipn).
  assert (Hlen : (List.length l - List.length (firstn page_size l)
                  = List.length (skipn page_size l))%nat).
  { rewrite Hsplit at 1. rewrite length_app. lia. }
  rewrite Hlen.
  destruct (skipn page_size l) as [|y rest] eqn:Hskip.
  - eexists. rewrite while_remaining_done by (cbn; lia).
    rewrite Hsplit at 2. now rewrite app_nil_r.
  - assert (Hall : db = (pre ++ front) ++ x :: (y :: rest)).
    { rewrite Hdb, Hsplit, Hlast, <- !app_assoc. reflexivity. }
    assert (Hy : 0 < fst y /\ fst y < fst x).
    { split.
      - rewrite Forall_forall in db_ids_positive. apply db_ids_positive.
        rewrite Hall. apply in_or_app. right. right. now left.
      - pose proof db_newest_first as Hsorted. rewrite Hall in Hsorted.
        destruct (newest_first_around _ _ _ Hsorted) as [_ Hb].
        now inversion Hb. }
    replace (fst x - 1 =? 0) with false by (symmetry; apply Z.eqb_neq; lia).
    pose proof db_newest_first as Hsorted.
    rewrite Hall in Hsorted. apply filter_older in Hsorted.
    rewrite <- Hall in Hsorted. rewrite Hsorted.
    destruct (IH (pre ++ firstn page_size l) (y :: rest)
                (acc ++ map detail_of_match (firstn page_size l))
                ((wd ++ [EvSleep 1])
                   ++ [EvGet (next_page_url self account_id (fst x - 1))]))
      as [w' Hrun].
    + now rewrite Hall, Hlast, <- !app_assoc.
    + assert (List.length (firstn page_size l) <> 0)%nat
        by (destruct (firstn page_size l); [congruence | discriminate]).
      assert (List.length l = List.length (firstn page_size l)
                              + List.length (y :: rest))%nat
        by (rewrite Hsplit at 1; now rewrite length_app).
      lia.
    + exists w'. rewrite Hrun. f_equal.
      rewrite <- app_assoc, <- map_app. now rewrite <- Hsplit.
Qed.

End StableUpstream.

(** Against a stable upstream that lists the account's matches newest
    first, with positive ids and in pages that are not empty, the walk with
    no hero filter returns the details of every match of the account, once
    each and in the upstream's order, as soon as the fuel covers the
    matches. *)
Theorem walk_of_stable_upstream_returns_every_match (db : list (Z * Z))
    (heroes : list Hero) (page_size fuel : nat) (account_id : pyval)
    (silently : bool) (w : World) :
  (0 < page_size)%nat ->
  newest_first db ->
  Forall (fun m => 0 < fst m) db ->
  (List.length db <= fuel)%nat ->
  fst (get_all_match_history_in_batches fuel
         (Upstream.client (Upstream.stable db heroes page_size))
         account_id silently ObjNone [] w)
    = Ret (map detail_of_match db) /\
  Upstream.match_ids (map detail_of_match db) = map fst db /\
  NoDup (map fst db).
Proof.
  intros Hpage Hsorted Hpos Hfuel. repeat split.
  - unfold get_all_match_history_in_batches, bind.
    change (get_match_history_and_retry_on_failure
              (Upstream.client (Upstream.stable db heroes page_size))
              PyNone account_id [("start_at_match_id", PyInt 0)])
      with (next_page (Upstream.client (Upstream.stable db heroes page_size))
              account_id 0).
    rewrite stable_next_page.
    cbn [ret read_local item_int total_results page_of Z.eqb].
    destruct (stable_loop db heroes page_size account_id silently
                Hpage Hsorted Hpos fuel [] db []
                (w ++ [EvGet (next_page_url
                                (Upstream.client (Upstream.stable db heroes page_size))
                                account_id 0)])
                eq_refl Hfuel) as [w' Hrun].
    cbn [page_of] in Hrun. rewrite Hrun. reflexivity.
  - clear. induction db as [|m l IH]; [reflexivity|].
    cbn [map Upstream.match_ids flat_map detail_of_match md_match_id app] in *.
    now rewrite <- IH.
  - clear - Hsorted. induction db as [|m l IH]; [constructor|].
    destruct Hsorted as [Hm Hrest]. cbn [map]. constructor; [|now apply IH].
    intros Hin. apply in_map_iff in Hin as (m' & Heq & Hin').
    rewrite Forall_forall in Hm. specialize (Hm m' Hin'). lia.
Qed.

(** The first hero whose walk ends in an exception ends the aggregation:
    the exception comes out, the results of the heroes before are lost with
    it, and no later hero is walked. *)
Theorem for_each_hero_stops_at_first_failure (fuel : nat) (self : Initialise)
    (account_id : pyval) (silently : bool) (done rest : list Hero) (hero : Hero)
    (acc acc1 : list pyobj) (w w1 w2 : World) (e : exn) :
  for_each_hero fuel self account_id silently done acc w = (Ret acc1, w1) ->
  get_all_match_history_in_batches fuel self account_id silently ObjNone
    [("hero_id", PyInt (id hero))] w1 = (Exc e, w2) ->
  for_each_hero fuel self account_id silently (done ++ hero :: rest) acc w
    = (Exc e, w2).
Proof.
  revert acc w. induction done as [|hero0 done IH]; intros acc w Hdone Hfail.
  - injection Hdone as <- <-. cbn [app for_each_hero]. unfold bind.
    now rewrite Hfail.
  - cbn [app for_each_hero] in *.
    apply bind_returns in Hdone as (hero_matches & w0 & Hwalk & Hdone).
    rewrite (bind_run _ _ _ _ _ Hwalk). now apply IH.
Qed.

(** ** The request of the history wrapper *)


(** ** Steam identifiers, outside the 32-bit range *)

(** Two numbers are converted to the same identifier exactly when they are
    equal or are the 32-bit and the 64-bit form of one account. *)
Theorem convert_to_64_bit_collisions (a b : Z) :
  convert_to_64_bit a = convert_to_64_bit b <->
  a = b \/
  (a < min64b <= b /\ b = a + min64b) \/
  (b < min64b <= a /\ a = b + min64b).
Proof.
  unfold convert_to_64_bit.
  destruct (Z.ltb_spec a min64b), (Z.ltb_spec b min64b); lia.
Qed.

(** A negative number is not brought into the 64-bit range: its result
    stays below 76561197960265728, and converting the result again adds the
    constant once more. *)
Theorem convert_to_64_bit_of_negative (n : Z) :
  n < 0 ->
  convert_to_64_bit n = n + min64b /\
  convert_to_64_bit n < min64b /\
  convert_to_64_bit (convert_to_64_bit n) = n + 2 * min64b /\
  convert_to_64_bit (convert_to_64_bit n) <> convert_to_64_bit n.
Proof.
  intros Hneg.
  assert (Hm : 0 < min64b) by reflexivity.
  assert (H1 : convert_to_64_bit n = n + min64b).
  { unfold convert_to_64_bit. destruct (Z.ltb_spec n min64b); lia. }
  assert (H2 : convert_to_64_bit (n + min64b) = n + 2 * min64b).
  { unfold convert_to_64_bit. destruct (Z.ltb_spec (n + min64b) min64b); lia. }
  rewrite H1, H2. repeat split; lia.
Qed.



(** ** The added statements at concrete inputs *)

(** A caller's [key] is overwritten, a caller's [hero_id] is kept. *)
Lemma build_url_parameters_at_foreign_key :
  dict_get "key"
    (api_query (build_url Upstream.forbidden GET_HEROES
                  [("key", PyStr "OTHER"); ("hero_id", PyInt 3)]))
    = Some (PyStr "KEY") /\
  dict_get "hero_id"
    (api_query (build_url Upstream.forbidden GET_HEROES
                  [("key", PyStr "OTHER"); ("hero_id", PyInt 3)]))
    = Some (PyInt 3).
Proof.
  destruct (build_url_parameters Upstream.forbidden GET_HEROES
              [("key", PyStr "OTHER"); ("hero_id", PyInt 3)])
    as (_ & Hkey & _ & _ & Hframe).
  split; [exact Hkey|].
  apply (Hframe "hero_id"); discriminate.
Defined.

(** The key of the environment and an empty language. *)
Lemma constructed_client_defaults_at_empty_language :
  dict_get "language" (api_query (build_url from_environment GET_HEROES []))
    = Some (PyStr (language from_environment)) /\
  language from_environment = "en_us".
Proof.
  destruct (constructed_client_defaults [("D2_API_KEY", "ENVKEY")]
              (Upstream.answers 200) None None (Some "") false
              from_environment eq_refl) as (Hlang & _ & _ & Hquery).
  split; [|exact Hlang].
  apply (Hquery GET_HEROES []); reflexivity.
Defined.

(** An upstream that cannot be reached. *)
Lemma fetch_calls_executor_once_at_unreachable :
  fst (get_match_history (Upstream.client unreachable) (PyInt 7) [] [])
    = Exc RequestException.
Proof.
  apply (proj1 (fetch_calls_executor_once (Upstream.client unreachable) [])
           (PyInt 7) []).
  reflexivity.
Defined.

(** An upstream that rejects the key: the exception comes after the fifth
    request. *)
Lemma retry_sends_one_to_five_requests_at_403 :
  exists retries,
    (retries <= 4)%nat /\
    snd (get_match_details_and_retry_on_failure Upstream.forbidden (PyInt 42) [] [])
      = [] ++ EvGet (details_url Upstream.forbidden (PyInt 42) [])
           :: more_attempts retries (details_url Upstream.forbidden (PyInt 42) []) /\
    retries = 4%nat.
Proof.
  destruct (proj2 (retry_sends_one_to_five_requests Upstream.forbidden [])
              (PyInt 42) []) as (retries & Hle & Hlog & Hexc).
  exists retries. repeat split; [exact Hle | exact Hlog |].
  apply (Hexc (APIAuthenticationError (Some "KEY"))). reflexivity.
Defined.

(** Two timeouts, then the page. *)
Lemma retry_returns_first_success_at_third_attempt :
  get_match_history_and_retry_on_failure flaky PyNone (PyInt 7) [] []
    = (Ret (ObjHistory Upstream.newer_first),
       [] ++ failed_attempts 2
               (history_url flaky (PyInt 7) [("start_at_match_seq", PyNone)])
          ++ [EvGet (history_url flaky (PyInt 7) [("start_at_match_seq", PyNone)])]).
Proof.
  apply (proj1 (retry_returns_first_success flaky [] 2
                  {| status_code := 200; json := ObjHistory Upstream.newer_first |}
                  ltac:(lia) ltac:(discriminate) ltac:(discriminate))
           PyNone (PyInt 7) []).
  - intros i Hi. destruct i as [|[|i]]; [right; reflexivity | right; reflexivity | lia].
  - reflexivity.
Defined.

(** The page that lists match 5 before match 3. *)
Lemma for_each_match_appends_details_at_newer_first :
  exists details,
    [ObjDetails {| md_match_id := 5 |}; ObjDetails {| md_match_id := 3 |}]
      = [] ++ details /\
    Forall2 (details_fetched (Upstream.client (Upstream.one_page Upstream.newer_first)))
            (matches Upstream.newer_first) details.
Proof.
  apply (for_each_match_appends_details
           (Upstream.client (Upstream.one_page Upstream.newer_first))
           (matches Upstream.newer_first) [] _ []
           (snd (for_each_match
                   (Upstream.client (Upstream.one_page Upstream.newer_first))
                   (matches Upstream.newer_first) [] []))).
  reflexivity.
Defined.

(** The same page when the details of match 3 are refused. *)
Lemma for_each_match_stops_at_first_failure_at_match_3 :
  for_each_match without_match_3 (matches Upstream.newer_first) [] []
    = (Exc (APIAuthenticationError (Some "KEY")),
       snd (get_match_details_and_retry_on_failure without_match_3 (PyInt 3) []
              (snd (for_each_match without_match_3 [ {| match_id := 5 |} ] [] [])
                 ++ [EvSleep 1]))).
Proof.
  apply (for_each_match_stops_at_first_failure without_match_3
           [ {| match_id := 5 |} ] [] {| match_id := 3 |}
           [] [ObjDetails {| md_match_id := 5 |}] []
           (snd (for_each_match without_match_3 [ {| match_id := 5 |} ] [] [])));
    reflexivity.
Defined.


(** The account of 600 matches. *)
Lemma aggregation_returns_hero_walks_at_600 :
  exists (h : HistoryPage) (w1 : World) (heroes : list Hero)
         (walks : list (list pyobj)),
    get_match_history_and_retry_on_failure large_upstream PyNone (PyInt 7) [] []
      = (Ret (ObjHistory h), w1) /\
    500 <= total_results h /\
    get_heroes large_upstream w1
      = (Ret (ObjHeroes heroes), w1 ++ [EvGet (build_url large_upstream GET_HEROES [])]) /\
    returned (fst large_aggregation) = List.concat walks /\
    Forall2 (hero_walked 10 large_upstream (PyInt 7) true) heroes walks.
Proof.
  apply (aggregation_returns_hero_walks 10 large_upstream (PyInt 7) true []
           (snd large_aggregation) (returned (fst large_aggregation))).
  vm_compute. reflexivity.
Defined.

Lemma heroes_are_requested_once_without_pause_at_600 :
  exists before rest,
    snd (get_all_matches_for_user 10 large_upstream (PyInt 7) true [])
      = before
          ++ [EvGet (history_url large_upstream (PyInt 7)
                       [("start_at_match_seq", PyNone)]);
              EvGet (build_url large_upstream GET_HEROES [])]
          ++ rest.
Proof.
  apply (proj1 (heroes_are_requested_once_without_pause 10 large_upstream
                  (PyInt 7) true []
                  (snd (get_match_history_and_retry_on_failure large_upstream
                          PyNone (PyInt 7) [] []))
                  (page_of 100 Upstream.six_hundred)
                  ltac:(vm_compute; reflexivity)
                  ltac:(vm_compute; discriminate))).
Defined.

(** Three matches in pages of two. *)
Lemma walk_of_stable_upstream_returns_every_match_at_three :
  fst (get_all_match_history_in_batches 3 small_upstream (PyInt 7) true
         ObjNone [] [])
    = Ret (map detail_of_match three_matches) /\
  Upstream.match_ids (map detail_of_match three_matches) = map fst three_matches /\
  NoDup (map fst three_matches).
Proof.
  apply (walk_of_stable_upstream_returns_every_match three_matches
           Upstream.three_heroes 2 3 (PyInt 7) true []).
  - lia.
  - cbn. repeat split; repeat constructor; cbn; lia.
  - repeat constructor; cbn; lia.
  - cbn. lia.
Defined.

(** The walks stop at hero 2 when its history is refused. *)
Lemma for_each_hero_stops_at_first_failure_at_hero_2 :
  for_each_hero 5 without_hero_2 (PyInt 7) true Upstream.three_heroes [] []
    = (Exc (APIAuthenticationError (Some "KEY")),
       snd (get_all_match_history_in_batches 5 without_hero_2 (PyInt 7) true
              ObjNone [("hero_id", PyInt 2)]
              (snd (for_each_hero 5 without_hero_2 (PyInt 7) true
                      [ {| id := 1; localized_name := "Anti-Mage" |} ] [] [])))).
Proof.
  apply (for_each_hero_stops_at_first_failure 5 without_hero_2 (PyInt 7) true
           [ {| id := 1; localized_name := "Anti-Mage" |} ]
           [ {| id := 3; localized_name := "Bane" |} ]
           {| id := 2; localized_name := "Axe" |}
           []
           (returned (fst (for_each_hero 5 without_hero_2 (PyInt 7) true
                             [ {| id := 1; localized_name := "Anti-Mage" |} ] [] [])))
           []
           (snd (for_each_hero 5 without_hero_2 (PyInt 7) true
                   [ {| id := 1; localized_name := "Anti-Mage" |} ] [] [])));
    vm_compute; reflexivity.
Defined.


(** The number -1. *)
Lemma convert_to_64_bit_of_negative_at_minus_1 :
  convert_to_64_bit (-1) < min64b /\
  convert_to_64_bit (convert_to_64_bit (-1)) <> convert_to_64_bit (-1).
Proof.
  destruct (convert_to_64_bit_of_negative (-1) ltac:(lia)) as (_ & Hlow & _ & Hne).
  split; assumption.
Defined.

